(** * Directus assets service: variant names, byte ranges, transform gate

    A shallow embedding of [api/src/services/assets.ts] (class
    [AssetsService] with [getAsset] and [getUrl], and the module-level
    helpers [getAssetSuffix] and [addAliyunOSSImageProcessParamsToURL]).

    - JavaScript values are a small inductive type; numbers are the
      integral ones (pixel sizes, byte offsets), as [Z].
    - The collaborators the module imports (database, authorization,
      storage disks, the codec, [object-hash], [uuid-validate], [path],
      [mime-types], [env]) are not part of the module.  The pure ones are
      fields of a [Host] record; the effectful ones are commands of a free
      monad [Prog], whose continuation receives the value or the error the
      collaborator answers with.
    - The module-level semaphore is the pair of constructors [Acquire]
      and [Release] of [Prog]; [runExclusive] brackets a body with them. *)

From Stdlib Require Import ZArith String Ascii List Bool Lia DecimalString.
From stdpp Require Import base option list strings gmap.

Set Warnings "-register-all,-clear-no-such-hyp".

Open Scope string_scope.
Open Scope Z_scope.
Open Scope list_scope.

(** ** JavaScript values *)

Inductive JsVal : Type :=
| JUndefined
| JNull
| JBool (b : bool)
| JNum (n : Z)
| JStr (s : string)
| JArr (items : list JsVal)
| JObj (props : list (string * JsVal)).

(** ToBoolean: what [if (v)] and [v && w] test. *)
Definition truthy (v : JsVal) : bool :=
  match v with
  | JUndefined | JNull => false
  | JBool b => b
  | JNum n => negb (n =? 0)
  | JStr s => negb (String.eqb s "")
  | JArr _ | JObj _ => true
  end.

Definition truthyStr (s : string) : bool := negb (String.eqb s "").

Fixpoint lookupProp (k : string) (props : list (string * JsVal)) : JsVal :=
  match props with
  | [] => JUndefined
  | (k', v) :: rest => if String.eqb k k' then v else lookupProp k rest
  end.

(** [v.k] for a [v] that is neither null nor undefined, and a [k] that no
    prototype defines. *)
Definition getProp (v : JsVal) (k : string) : JsVal :=
  match v with
  | JObj props => lookupProp k props
  | _ => JUndefined
  end.

Definition decimal (n : Z) : string := NilZero.string_of_int (Z.to_int n).

Fixpoint joinWith (sep : string) (l : list string) : string :=
  match l with
  | [] => ""
  | [s] => s
  | s :: rest => s +:+ sep +:+ joinWith sep rest
  end.

(** ToString, as a template literal applies it. *)
Fixpoint toStr (v : JsVal) : string :=
  match v with
  | JUndefined => "undefined"
  | JNull => "null"
  | JBool true => "true"
  | JBool false => "false"
  | JNum n => decimal n
  | JStr s => s
  | JArr items =>
      joinWith ","
        ((fix each (l : list JsVal) : list string :=
            match l with
            | [] => []
            | JUndefined :: r | JNull :: r => "" :: each r
            | x :: r => toStr x :: each r
            end) items)
  | JObj _ => "[object Object]"
  end.

(** ** Transformations *)

(** A [Transformation] is the tuple [[method, ...args]]. *)
Record Transformation : Type := mkTransformation {
  method : string;
  args : list JsVal
}.

(** [const [method, args] = t]: the second element of the tuple. *)
Definition firstArg (t : Transformation) : JsVal := hd JUndefined (args t).

(** ** File records and requests *)

Record File : Type := mkFile {
  file_id : string;
  storage : string;
  filename_disk : string;
  type : option string;
  filesize : Z;
  width : option Z;
  height : option Z
}.

(** [TransformationParams | TransformationPreset]: the request object, and
    its optional [suffix]. *)
Record TransformationRequest : Type := mkRequest {
  request : JsVal;
  suffix : option string
}.

(** ** Pure collaborators *)

Record Host : Type := mkHost {
  (** [validateUUID(id, version)] of uuid-validate *)
  validateUUID : string -> Z -> bool;
  (** [hash(transforms)] of object-hash *)
  hash : list Transformation -> string;
  (** [TransformationUtils.resolvePreset] and [maybeExtractFormat] *)
  resolvePreset : TransformationRequest -> File -> list Transformation;
  maybeExtractFormat : list Transformation -> option string;
  (** [path.basename(p, ext)] and [path.extname(p)] *)
  basename : string -> string -> string;
  extname : string -> string;
  (** [contentType(name)] of mime-types; [None] is its [false] *)
  contentType : string -> option string;
  (** [new URLSearchParams(q)], then [set(k, v)], then its string *)
  searchParamsSet : string -> string -> string -> string;
  ASSETS_TRANSFORM_IMAGE_MAX_DIMENSION : Z;
  ASSETS_TRANSFORM_MAX_CONCURRENT : nat
}.

(** ** [getAssetSuffix] *)

Section Suffix.
Context (host : Host).

Definition getAssetSuffix (transforms : list Transformation) (suffix : option string) : string :=
  if (length transforms =? 0)%nat then ""
  else match suffix with
       | Some s => if truthyStr s then "." +:+ s else "__" +:+ hash host transforms
       | None => "__" +:+ hash host transforms
       end.

End Suffix.

(** ** [addAliyunOSSImageProcessParamsToURL] *)

(** The inner [switch (options.fit)]; [None] is its [default: return '']. *)
Definition fitParam (fit : JsVal) : option string :=
  match fit with
  | JStr mode =>
      if String.eqb mode "contain" then Some ",m_lfit"
      else if String.eqb mode "cover" then Some ",m_fill"
      else if String.eqb mode "inside" then Some ",m_lfit"
      else if String.eqb mode "outside" then Some ",mfit"
      else if String.eqb mode "fill" then Some ",fill"
      else None
  | _ => None
  end.

Definition sizeParam (key : string) (v : JsVal) : string :=
  if truthy v then key +:+ toStr v else "".

(** The body of [case 'resize']. *)
Definition resizeCmd (options : JsVal) : option string :=
  match fitParam (getProp options "fit") with
  | None => None
  | Some m =>
      Some ("resize" +:+ m
            +:+ sizeParam ",w_" (getProp options "width")
            +:+ sizeParam ",h_" (getProp options "height"))
  end.

(** The outer [switch (method)]. *)
Definition transformCmd (t : Transformation) : option string :=
  if String.eqb (method t) "resize" then resizeCmd (firstArg t) else None.

(** The [for] loop over [transforms], from a given [process]; [None] is an
    early [return '']. *)
Fixpoint buildProcess (process : string) (transforms : list Transformation) : option string :=
  match transforms with
  | [] => Some process
  | t :: rest =>
      if truthyStr (method t) && truthy (firstArg t) then
        match transformCmd t with
        | None => None
        | Some cmd => buildProcess (process +:+ "/" +:+ cmd) rest
        end
      else buildProcess process rest
  end.

(** [url.split('?')[0]] *)
Fixpoint beforeQuery (url : string) : string :=
  match url with
  | EmptyString => EmptyString
  | String c rest => if Ascii.eqb c "?" then EmptyString else String c (beforeQuery rest)
  end.

Fixpoint afterQuery (url : string) : option string :=
  match url with
  | EmptyString => None
  | String c rest => if Ascii.eqb c "?" then Some rest else afterQuery rest
  end.

(** [url.split('?')[1] || ''] *)
Definition queryOf (url : string) : string :=
  match afterQuery url with
  | None => ""
  | Some rest => beforeQuery rest
  end.

Section Aliyun.
Context (host : Host).

Definition addAliyunOSSImageProcessParamsToURL (url : string) (transforms : list Transformation) : string :=
  match buildProcess "" transforms with
  | None => ""
  | Some process =>
      if negb (truthyStr process) then url
      else beforeQuery url +:+ "?"
           +:+ searchParamsSet host (queryOf url) "x-oss-process" ("image" +:+ process)
  end.

End Aliyun.

(** ** Byte ranges *)

(** [Range] of the storage layer; [end] is a keyword here, hence [end_]. *)
Record Range : Type := mkRange {
  start : option Z;
  end_ : option Z
}.

Definition isUndefined (o : option Z) : bool :=
  match o with None => true | Some _ => false end.

(** ToBoolean of a possibly undefined number. *)
Definition truthyNum (o : option Z) : bool :=
  match o with Some n => negb (n =? 0) | None => false end.

(** Comparisons of a possibly undefined number: false when undefined. *)
Definition leNum (o : option Z) (n : Z) : bool :=
  match o with Some v => v <=? n | None => false end.

Definition geNum (o : option Z) (n : Z) : bool :=
  match o with Some v => n <=? v | None => false end.

Definition ltNum (o : option Z) (n : Z) : bool :=
  match o with Some v => v <? n | None => false end.

Definition missingRangeLimits (range : Range) : bool :=
  isUndefined (start range) && isUndefined (end_ range).

Definition endBeforeStart (range : Range) : bool :=
  match start range, end_ range with
  | Some s, Some e => e <=? s
  | _, _ => false
  end.

Definition startOverflow (range : Range) (filesize : Z) : bool :=
  negb (isUndefined (start range)) && geNum (start range) filesize.

Definition endUnderflow (range : Range) : bool :=
  negb (isUndefined (end_ range)) && leNum (end_ range) 0.

(** The condition of [throw new RangeNotSatisfiableException(range)]. *)
Definition rangeNotSatisfiable (range : Range) (filesize : Z) : bool :=
  missingRangeLimits range || endBeforeStart range
  || startOverflow range filesize || endUnderflow range.

(** The block [if (range.end) { ... }]. *)
Definition normalizeEnd (range : Range) (filesize : Z) : Range :=
  let lastByte := filesize - 1 in
  match end_ range with
  | Some e =>
      if truthyNum (end_ range) then
        let range1 :=
          if isUndefined (start range)
          then {| start := Some (filesize - e); end_ := Some lastByte |}
          else range in
        if geNum (end_ range1) filesize
        then {| start := start range1; end_ := Some lastByte |}
        else range1
      else range
  | None => range
  end.

(** The block [if (range.start) { ... }]. *)
Definition normalizeStart (range : Range) (filesize : Z) : Range :=
  let lastByte := filesize - 1 in
  if truthyNum (start range) then
    let range1 :=
      if isUndefined (end_ range)
      then {| start := start range; end_ := Some lastByte |}
      else range in
    if ltNum (start range1) 0
    then {| start := Some 0; end_ := end_ range1 |}
    else range1
  else range.

(** What the range object holds after both blocks. *)
Definition normalizeRange (range : Range) (filesize : Z) : Range :=
  normalizeStart (normalizeEnd range filesize) filesize.

(** ** Exceptions, streams, commands *)

Inductive Exception : Type :=
| ForbiddenException
| IllegalAssetTransformation (message : string)
| RangeNotSatisfiableException (range : Range)
(** anything else a collaborator throws *)
| CollaboratorError (message : string).

Record StatResponse : Type := mkStat {
  size : Z;
  modified : Z
}.

(** The [sharp] pipeline object: its options and the methods called on it,
    in call order.  [rotate()] with no argument is auto-orientation. *)
Record Transformer : Type := mkTransformer {
  limitInputPixels : Z;
  sequentialRead : bool;
  calls : list Transformation
}.

Definition sharp (limit : Z) (sequential : bool) : Transformer :=
  {| limitInputPixels := limit; sequentialRead := sequential; calls := [] |}.

(** [transformer[method].apply(transformer, args)] *)
Definition invoke (transformer : Transformer) (t : Transformation) : Transformer :=
  {| limitInputPixels := limitInputPixels transformer;
     sequentialRead := sequentialRead transformer;
     calls := calls transformer ++ [t] |}.

Definition autoOrient : Transformation := {| method := "rotate"; args := [] |}.

(** A stream is known by how it was made: read off a disk, or piped
    through a pipeline. *)
Inductive Stream : Type :=
| FileStream (disk name : string) (range : option Range)
| Piped (source : Stream) (transformer : Transformer).

Record Settings : Type := mkSettings {
  project_logo : option string;
  public_background : option string;
  public_foreground : option string
}.

(** The calls out of the module, indexed by what they answer. *)
Inductive Cmd : Type -> Type :=
| SelectSettings : Cmd (option Settings)
| CheckAccess (action collection id : string) : Cmd unit
| SelectFile (id : string) : Cmd (option File)
| StorageGetDriverName (disk : string) : Cmd string
| DiskExists (disk name : string) : Cmd bool
| DiskGetStream (disk name : string) (range : option Range) : Cmd unit
| DiskGetStat (disk name : string) : Cmd StatResponse
| DiskPut (disk name : string) (content : Stream) (type : option string) : Cmd unit
| DiskGetUrl (disk name : string) : Cmd string.

(** ** Programs *)

Inductive Prog (A : Type) : Type :=
| Ret (a : A)
| Throw (e : Exception)
| Call {X : Type} (c : Cmd X) (k : X + Exception -> Prog A)
| Acquire (k : Prog A)
| Release (k : Prog A).

Arguments Ret {A} a.
Arguments Throw {A} e.
Arguments Call {A X} c k.
Arguments Acquire {A} k.
Arguments Release {A} k.

Fixpoint bind {A B : Type} (p : Prog A) (f : A -> Prog B) : Prog B :=
  match p with
  | Ret a => f a
  | Throw e => Throw e
  | Call c k => Call c (fun r => bind (k r) f)
  | Acquire k => Acquire (bind k f)
  | Release k => Release (bind k f)
  end.

Notation "'let*' x ':=' p 'in' q" := (bind p (fun x => q))
  (at level 10, x name, p at level 100, q at level 200, only parsing).

(** A call whose error is rethrown to the caller. *)
Definition call {X : Type} (c : Cmd X) : Prog X :=
  Call c (fun r => match r with inl x => Ret x | inr e => Throw e end).

(** [try { body } finally { release() }] *)
Fixpoint finallyRelease {A : Type} (body : Prog A) : Prog A :=
  match body with
  | Ret a => Release (Ret a)
  | Throw e => Release (Throw e)
  | Call c k => Call c (fun r => finallyRelease (k r))
  | Acquire k => Acquire (finallyRelease k)
  | Release k => Release (finallyRelease k)
  end.

(** [semaphore.runExclusive(body)] on the module's one semaphore. *)
Definition runExclusive {A : Type} (body : Prog A) : Prog A :=
  Acquire (finallyRelease body).

(** ** The service *)

Record Accountability : Type := mkAccountability {
  admin : option bool
}.

Record AssetsService : Type := mkService {
  accountability : option Accountability
}.

(** [this.accountability?.admin === true] *)
Definition isAdmin (service : AssetsService) : bool :=
  match accountability service with
  | Some a => match admin a with Some true => true | _ => false end
  | None => false
  end.

(** [Object.values(publicSettings || {})] *)
Definition systemPublicKeys (publicSettings : option Settings) : list (option string) :=
  match publicSettings with
  | Some s => [project_logo s; public_background s; public_foreground s]
  | None => []
  end.

Definition includes (keys : list (option string)) (id : string) : bool :=
  existsb (fun k => match k with Some v => String.eqb v id | None => false end) keys.

Definition transformableTypes : list string :=
  ["image/jpeg"; "image/png"; "image/webp"; "image/tiff"].

(** [type && transforms.length > 0 && [...].includes(type)] *)
Definition transformable (type : option string) (transforms : list Transformation) : bool :=
  match type with
  | Some ty =>
      truthyStr ty && (0 <? length transforms)%nat
      && existsb (String.eqb ty) transformableTypes
  | None => false
  end.

Definition truthyOpt (o : option string) : bool :=
  match o with Some s => truthyStr s | None => false end.

Definition gtNum (o : option Z) (n : Z) : bool :=
  match o with Some v => n <? v | None => false end.

(** [transforms.find((transform) => transform[0] === 'rotate') !== undefined] *)
Definition hasRotate (transforms : list Transformation) : bool :=
  existsb (fun t => String.eqb (method t) "rotate") transforms.

Definition illegalMessage : string :=
  "Image is too large to be transformed, or image size couldn't be determined.".

Record AssetResponse : Type := mkAssetResponse {
  a_stream : Stream;
  a_file : File;
  a_stat : StatResponse
}.

Record UrlResponse : Type := mkUrlResponse {
  u_url : string;
  u_file : option File
}.

Definition setType (file : File) (newType : option string) : File :=
  {| file_id := file_id file; storage := storage file;
     filename_disk := filename_disk file; type := newType;
     filesize := filesize file; width := width file; height := height file |}.

Section Service.
Context (host : Host).

Definition maxDimension : Z := ASSETS_TRANSFORM_IMAGE_MAX_DIMENSION host.

(** The variant's file name. *)
Definition assetFilename (file : File) (transforms : list Transformation)
    (transformation : TransformationRequest) : string :=
  let maybeNewFormat := maybeExtractFormat host transforms in
  basename host (filename_disk file) (extname host (filename_disk file))
  +:+ getAssetSuffix host transforms (suffix transformation)
  +:+ (if truthyOpt maybeNewFormat
       then "." +:+ default "" maybeNewFormat
       else extname host (filename_disk file)).

(** [file.type = contentType(assetFilename) || null], under
    [if (maybeNewFormat)]. *)
Definition retype (file : File) (transforms : list Transformation) (name : string) : File :=
  if truthyOpt (maybeExtractFormat host transforms)
  then setType file (if truthyOpt (contentType host name) then contentType host name else None)
  else file.

(** The dimension guard: [!width || !height || width > MAX || height > MAX]. *)
Definition refused (file : File) : bool :=
  negb (truthyNum (width file)) || negb (truthyNum (height file))
  || gtNum (width file) maxDimension || gtNum (height file) maxDimension.

Definition newTransformer : Transformer := sharp (maxDimension ^ 2) true.

(** The pipeline [getAsset] builds. *)
Definition assetTransformer (transforms : list Transformation) : Transformer :=
  let transformer := newTransformer in
  let transformer :=
    if negb (hasRotate transforms) then invoke transformer autoOrient else transformer in
  fold_left invoke transforms transformer.

(** The pipeline [getUrl] builds. *)
Definition urlTransformer (transforms : list Transformation) : Transformer :=
  fold_left invoke transforms (invoke newTransformer autoOrient).

(** The first lines [getAsset] and [getUrl] share: settings, identifier,
    access, file record. *)
Definition lookupFile (service : AssetsService) (id : string) : Prog File :=
  let* publicSettings := call SelectSettings in
  let keys := systemPublicKeys publicSettings in
  let isValidUUID := validateUUID host id 4 in
  if negb isValidUUID then Throw ForbiddenException
  else
    let* _ :=
      (if negb (includes keys id) && negb (isAdmin service)
       then call (CheckAccess "read" "directus_files" id)
       else Ret tt) in
    let* file := call (SelectFile id) in
    match file with
    | None => Throw ForbiddenException
    | Some file => Ret file
    end.

(** The block [if (range) { ... }]. *)
Definition checkRange (range : option Range) (filesize : Z) : Prog (option Range) :=
  match range with
  | None => Ret None
  | Some r =>
      if rangeNotSatisfiable r filesize
      then Throw (RangeNotSatisfiableException r)
      else Ret (Some (normalizeRange r filesize))
  end.

(** The body handed to [semaphore.runExclusive] in [getAsset].  (The
    handler it registers for a read error of the source only logs and
    unpipes; it makes no call of its own.) *)
Definition transformAsset (file : File) (originalType : option string)
    (transforms : list Transformation) (name : string) (range : option Range)
    : Prog AssetResponse :=
  let* _ := call (DiskGetStream (storage file) (filename_disk file) range) in
  let readStream := FileStream (storage file) (filename_disk file) range in
  let transformer := assetTransformer transforms in
  let* _ := call (DiskPut (storage file) name (Piped readStream transformer) originalType) in
  let* _ := call (DiskGetStream (storage file) name range) in
  let* stat := call (DiskGetStat (storage file) name) in
  Ret {| a_stream := FileStream (storage file) name range; a_file := file; a_stat := stat |}.

(** [getAsset] from [const type = file.type] on: the variant or the
    original, read with the range as the block above left it. *)
Definition serveAsset (file : File) (transformation : TransformationRequest)
    (range : option Range) : Prog AssetResponse :=
  let type0 := type file in
  let transforms := resolvePreset host transformation file in
  if transformable type0 transforms then
    let name := assetFilename file transforms transformation in
    let* exists_ := call (DiskExists (storage file) name) in
    let file := retype file transforms name in
    if exists_ then
      let* _ := call (DiskGetStream (storage file) name range) in
      let* stat := call (DiskGetStat (storage file) name) in
      Ret {| a_stream := FileStream (storage file) name range;
             a_file := file; a_stat := stat |}
    else if refused file then Throw (IllegalAssetTransformation illegalMessage)
    else runExclusive (transformAsset file type0 transforms name range)
  else
    let* _ := call (DiskGetStream (storage file) (filename_disk file) range) in
    let* stat := call (DiskGetStat (storage file) (filename_disk file)) in
    Ret {| a_stream := FileStream (storage file) (filename_disk file) range;
           a_file := file; a_stat := stat |}.

Definition getAsset (service : AssetsService) (id : string)
    (transformation : TransformationRequest) (range : option Range) : Prog AssetResponse :=
  let* file := lookupFile service id in
  let* exists_ := call (DiskExists (storage file) (filename_disk file)) in
  if negb exists_ then Throw ForbiddenException
  else
    let* range := checkRange range (filesize file) in
    serveAsset file transformation range.

(** The body handed to [semaphore.runExclusive] in [getUrl]. *)
Definition transformUrl (file : File) (originalType : option string)
    (transforms : list Transformation) (name : string) : Prog UrlResponse :=
  let* _ := call (DiskGetStream (storage file) (filename_disk file) None) in
  let readStream := FileStream (storage file) (filename_disk file) None in
  let transformer := urlTransformer transforms in
  let* _ := call (DiskPut (storage file) name (Piped readStream transformer) originalType) in
  let* url := call (DiskGetUrl (storage file) name) in
  Ret {| u_url := url; u_file := Some file |}.

Definition aliyunLimit : Z := 20971520.

(** The provider's URL for the transforms, or [''] when the file is too
    large for the provider or the rewrite refuses. *)
Definition offloadUrl (file : File) (url : string) (transforms : list Transformation) : string :=
  if filesize file <? aliyunLimit
  then addAliyunOSSImageProcessParamsToURL host url transforms
  else "".

(** The block under [if (!url)]: the local fallback of [getUrl]. *)
Definition fallbackUrl (file : File) (transformation : TransformationRequest)
    (transforms : list Transformation) : Prog UrlResponse :=
  let type0 := type file in
  let name := assetFilename file transforms transformation in
  let* exists_ := call (DiskExists (storage file) name) in
  let file := retype file transforms name in
  if exists_ then
    let* url := call (DiskGetUrl (storage file) name) in
    Ret {| u_url := url; u_file := Some file |}
  else if refused file then Throw (IllegalAssetTransformation illegalMessage)
  else runExclusive (transformUrl file type0 transforms name).

Definition getUrl (service : AssetsService) (id : string)
    (transformation : TransformationRequest) : Prog UrlResponse :=
  let* file := lookupFile service id in
  let* driver := call (StorageGetDriverName (storage file)) in
  if negb (String.eqb driver "aliyunoss") then Ret {| u_url := ""; u_file := None |}
  else
    let* url := call (DiskGetUrl (storage file) (filename_disk file)) in
    let transforms := resolvePreset host transformation file in
    if transformable (type file) transforms then
      let url := offloadUrl file url transforms in
      if negb (truthyStr url) then fallbackUrl file transformation transforms
      else Ret {| u_url := url; u_file := Some file |}
    else Ret {| u_url := url; u_file := Some file |}.

End Service.

(** ** Executions *)

(** What an execution leaves behind: each call with its answer, and the
    semaphore operations. *)
Inductive Event : Type :=
| Called {X : Type} (c : Cmd X) (r : X + Exception)
| Acquired
| Released.

Definition isDatabaseCmd {X : Type} (c : Cmd X) : bool :=
  match c with
  | SelectSettings | SelectFile _ => true
  | _ => false
  end.

Definition isStorageCmd {X : Type} (c : Cmd X) : bool :=
  match c with
  | StorageGetDriverName _ | DiskExists _ _ | DiskGetStream _ _ _
  | DiskGetStat _ _ | DiskPut _ _ _ _ | DiskGetUrl _ _ => true
  | _ => false
  end.

Definition isPutCmd {X : Type} (c : Cmd X) : bool :=
  match c with
  | DiskPut _ _ _ _ => true
  | _ => false
  end.

Definition isDatabaseCall (ev : Event) : bool :=
  match ev with Called c _ => isDatabaseCmd c | _ => false end.

Definition isStorageCall (ev : Event) : bool :=
  match ev with Called c _ => isStorageCmd c | _ => false end.

Definition isPut (ev : Event) : bool :=
  match ev with Called c _ => isPutCmd c | _ => false end.

Definition isAcquired (ev : Event) : bool :=
  match ev with Acquired => true | _ => false end.

(** [Exec p tr res]: some execution of [p] leaves the events [tr] and
    ends in [res].  A call may be answered by any value or error. *)
Fixpoint Exec {A : Type} (p : Prog A) (tr : list Event) (res : A + Exception) : Prop :=
  match p with
  | Ret a => tr = [] /\ res = inl a
  | Throw e => tr = [] /\ res = inr e
  | Call c k => exists r tr', tr = Called c r :: tr' /\ Exec (k r) tr' res
  | Acquire k => exists tr', tr = Acquired :: tr' /\ Exec k tr' res
  | Release k => exists tr', tr = Released :: tr' /\ Exec k tr' res
  end.

(** ** A reference environment *)

(** The collaborators as plain data: the settings row, the file records,
    who may read what, the disks' drivers and contents, the codec and the
    public URLs.  A call fails only for a refused access or a missing
    object. *)
Record World : Type := mkWorld {
  settings : option Settings;
  files : gmap string File;
  readable : string -> bool;
  drivers : gmap string string;
  disks : gmap (string * string) (list Byte.byte);
  render : Transformer -> list Byte.byte -> list Byte.byte;
  publicUrl : string -> string -> string
}.

Definition setDisks (w : World) (d : gmap (string * string) (list Byte.byte)) : World :=
  {| settings := settings w; files := files w; readable := readable w;
     drivers := drivers w; disks := d; render := render w;
     publicUrl := publicUrl w |}.

(** The bytes [start..end] of a file, both inclusive; an absent bound is
    the file's. *)
Definition slice (range : option Range) (bytes : list Byte.byte) : list Byte.byte :=
  match range with
  | None => bytes
  | Some r =>
      let first := Z.to_nat (default 0 (start r)) in
      let last := default (Z.of_nat (length bytes) - 1) (end_ r) in
      take (Z.to_nat (last + 1) - first)%nat (drop first bytes)
  end.

Fixpoint streamBytes (w : World) (s : Stream) : option (list Byte.byte) :=
  match s with
  | FileStream disk name range => slice range <$> disks w !! (disk, name)
  | Piped source transformer => render w transformer <$> streamBytes w source
  end.

Definition missing : Exception := CollaboratorError "no such file".

Definition respond {X : Type} (w : World) (c : Cmd X) : World * (X + Exception) :=
  match c in Cmd X return World * (X + Exception) with
  | SelectSettings => (w, inl (settings w))
  | CheckAccess _ _ id =>
      (w, if readable w id then inl tt else inr ForbiddenException)
  | SelectFile id => (w, inl (files w !! id))
  | StorageGetDriverName disk =>
      (w, match drivers w !! disk with
          | Some d => inl d
          | None => inr (CollaboratorError "no such disk")
          end)
  | DiskExists disk name => (w, inl (bool_decide (is_Some (disks w !! (disk, name)))))
  | DiskGetStream _ _ _ => (w, inl tt)
  | DiskGetStat disk name =>
      (w, match disks w !! (disk, name) with
          | Some bytes => inl {| size := Z.of_nat (length bytes); modified := 0 |}
          | None => inr missing
          end)
  | DiskPut disk name content _ =>
      match streamBytes w content with
      | Some bytes => (setDisks w (<[(disk, name) := bytes]> (disks w)), inl tt)
      | None => (w, inr missing)
      end
  | DiskGetUrl disk name => (w, inl (publicUrl w disk name))
  end.

(** One run in the reference environment: the final world, the events and
    the outcome. *)
Fixpoint run {A : Type} (w : World) (p : Prog A) : World * list Event * (A + Exception) :=
  match p with
  | Ret a => (w, [], inl a)
  | Throw e => (w, [], inr e)
  | Call c k =>
      let '(w1, r) := respond w c in
      let '(w2, tr, res) := run w1 (k r) in
      (w2, Called c r :: tr, res)
  | Acquire k =>
      let '(w1, tr, res) := run w k in (w1, Acquired :: tr, res)
  | Release k =>
      let '(w1, tr, res) := run w k in (w1, Released :: tr, res)
  end.

(** ** The process: requests interleaved on one semaphore *)

(** A request in flight: what is left of its program, and the slots it
    holds. *)
Inductive Task : Type :=
| InFlight {A : Type} (held : nat) (code : Prog A).

Definition heldBy (t : Task) : nat :=
  match t with InFlight held _ => held end.

(** The process: the semaphore's free slots and the requests in flight. *)
Record Process : Type := mkProcess {
  free : nat;
  tasks : list Task
}.

Section Scheduler.
Context (host : Host).

(** A request that enters the process holds nothing. *)
Inductive Request : Task -> Prop :=
| RequestAsset (service : AssetsService) (id : string)
    (transformation : TransformationRequest) (range : option Range) :
    Request (InFlight 0 (getAsset host service id transformation range))
| RequestUrl (service : AssetsService) (id : string)
    (transformation : TransformationRequest) :
    Request (InFlight 0 (getUrl host service id transformation)).

(** One step of one task, from [n] free slots to [n'].  A call takes any
    answer; [Acquire] only steps when a slot is free and takes it;
    [Release] gives one back.  A finished task does not step. *)
Definition TaskStep (n : nat) (t : Task) (n' : nat) (t' : Task) : Prop :=
  match t with
  | InFlight held (Call c k) => exists r, n' = n /\ t' = InFlight held (k r)
  | InFlight held (Acquire k) => n = S n' /\ t' = InFlight (S held) k
  | InFlight held (Release k) => n' = S n /\ t' = InFlight (Nat.pred held) k
  | InFlight _ (Ret _) | InFlight _ (Throw _) => False
  end.

Inductive Step : Process -> Process -> Prop :=
| Arrive (n : nat) (ts : list Task) (t : Task) :
    Request t -> Step (mkProcess n ts) (mkProcess n (ts ++ [t]))
| Advance (n n' : nat) (before after : list Task) (t t' : Task) :
    TaskStep n t n' t' ->
    Step (mkProcess n (before ++ t :: after)) (mkProcess n' (before ++ t' :: after)).

(** The process starts with every slot free and no request. *)
Definition boot : Process :=
  mkProcess (ASSETS_TRANSFORM_MAX_CONCURRENT host) [].

Inductive Reachable : Process -> Prop :=
| ReachBoot : Reachable boot
| ReachStep (p q : Process) : Reachable p -> Step p q -> Reachable q.

End Scheduler.

(** A task is inside the gate while it holds a slot. *)
Definition inGate (t : Task) : bool := (0 <? heldBy t)%nat.

Definition gated (p : Process) : nat := length (filter (fun t => inGate t = true) (tasks p)).

(** The task's next step is the write of a variant. *)
Definition aboutToPut (t : Task) : Prop :=
  match t with
  | InFlight _ (Call c _) => isPutCmd c = true
  | _ => False
  end.

Definition finished (t : Task) : Prop :=
  match t with
  | InFlight _ (Ret _) | InFlight _ (Throw _) => True
  | _ => False
  end.

(** ** A concrete host and world

    Stand-ins for the libraries and the stores, used where a statement is
    evaluated on a concrete request. *)

Module Demo.

Definition between (lo hi : nat) (c : ascii) : bool :=
  let n := nat_of_ascii c in ((lo <=? n) && (n <=? hi))%nat.

Definition isHex (c : ascii) : bool :=
  between 48 57 c || between 97 102 c || between 65 70 c.

Definition isChar (d : ascii) (c : ascii) : bool := Ascii.eqb c d.

Definition isVariant (c : ascii) : bool :=
  existsb (Ascii.eqb c) ["8"; "9"; "a"; "b"; "A"; "B"]%char.

Fixpoint matches (pattern : list (ascii -> bool)) (s : string) : bool :=
  match pattern, s with
  | [], EmptyString => true
  | p :: ps, String c rest => p c && matches ps rest
  | _, _ => false
  end.

(** 8-4-4-4-12 hexadecimal digits, version digit 4, variant 8, 9, a or b. *)
Definition v4Pattern : list (ascii -> bool) :=
  repeat isHex 8 ++ [isChar "-"%char] ++ repeat isHex 4 ++ [isChar "-"%char]
  ++ [isChar "4"%char] ++ repeat isHex 3 ++ [isChar "-"%char]
  ++ [isVariant] ++ repeat isHex 3 ++ [isChar "-"%char] ++ repeat isHex 12.

Definition isUuidV4 (id : string) (version : Z) : bool :=
  (version =? 4) && matches v4Pattern id.

(** The method names, in place of the SHA-1 digest. *)
Definition describe (transforms : list Transformation) : string :=
  joinWith "-" (map method transforms).

Definition decodeTransform (v : JsVal) : list Transformation :=
  match v with
  | JArr (JStr m :: rest) => [{| method := m; args := rest |}]
  | _ => []
  end.

(** The request's [transforms] array, as it stands. *)
Definition inlineTransforms (transformation : TransformationRequest) (file : File) : list Transformation :=
  match getProp (request transformation) "transforms" with
  | JArr items => concat (map decodeTransform items)
  | _ => []
  end.

(** The argument of the last [toFormat]. *)
Definition lastFormat (transforms : list Transformation) : option string :=
  match filter (fun t => method t = "toFormat") transforms with
  | [] => None
  | t :: ts =>
      match firstArg (List.last ts t) with
      | JUndefined | JNull => None
      | v => Some (toStr v)
      end
  end.

Fixpoint lastDot (s : string) : option string :=
  match s with
  | EmptyString => None
  | String c rest =>
      match lastDot rest with
      | Some ext => Some ext
      | None => if Ascii.eqb c "." then Some s else None
      end
  end.

Definition extension (p : string) : string :=
  match p with
  | EmptyString => ""
  | String _ rest => default "" (lastDot rest)
  end.

Fixpoint dropEnd (p ext : string) : string :=
  match p with
  | EmptyString => EmptyString
  | String c rest => if String.eqb p ext then EmptyString else String c (dropEnd rest ext)
  end.

Definition stem (p ext : string) : string :=
  if String.eqb ext "" then p else dropEnd p ext.

Definition mimeOf (name : string) : option string :=
  let ext := extension name in
  if String.eqb ext ".jpg" then Some "image/jpeg"
  else if String.eqb ext ".png" then Some "image/png"
  else if String.eqb ext ".webp" then Some "image/webp"
  else None.

Fixpoint percentEncode (s : string) : string :=
  match s with
  | EmptyString => EmptyString
  | String c rest =>
      if Ascii.eqb c "/" then "%2F" +:+ percentEncode rest
      else if Ascii.eqb c "," then "%2C" +:+ percentEncode rest
      else String c (percentEncode rest)
  end.

(** Appends the parameter to a query that does not hold it yet. *)
Definition appendParam (query key value : string) : string :=
  (if String.eqb query "" then "" else query +:+ "&")
  +:+ key +:+ "=" +:+ percentEncode value.

Definition host : Host :=
  mkHost isUuidV4 describe inlineTransforms lastFormat stem extension mimeOf
    appendParam 4000 2.

Definition service : AssetsService := {| accountability := None |}.

Definition photoId : string := "1b9d6bcd-bbfd-4b2d-9b5d-ab8dfbbd4bed".
Definition posterId : string := "6ec0bd7f-11c0-43da-975e-2a8ad9ebae0b".
Definition scanId : string := "3f2504e0-4f89-41d3-9a0c-0305e82c3301".
Definition chartId : string := "9c5b94b1-35ad-49bb-b118-8e8fc24abf80".

(** A 1200x800 JPEG of eight bytes on a local disk. *)
Definition photo : File :=
  {| file_id := photoId; storage := "local"; filename_disk := "photo.jpg";
     type := Some "image/jpeg"; filesize := 8;
     width := Some 1200; height := Some 800 |}.

(** A 5000x5000 JPEG on a local disk. *)
Definition poster : File :=
  {| file_id := posterId; storage := "local"; filename_disk := "poster.jpg";
     type := Some "image/jpeg"; filesize := 4;
     width := Some 5000; height := Some 5000 |}.

(** A JPEG of unknown size on the provider's disk. *)
Definition scan : File :=
  {| file_id := scanId; storage := "oss"; filename_disk := "scan.jpg";
     type := Some "image/jpeg"; filesize := 4;
     width := None; height := None |}.

(** A 640x480 PNG on the provider's disk. *)
Definition chart : File :=
  {| file_id := chartId; storage := "oss"; filename_disk := "chart.png";
     type := Some "image/png"; filesize := 4;
     width := Some 640; height := Some 480 |}.

Definition photoBytes : list Byte.byte :=
  [Byte.x10; Byte.x11; Byte.x12; Byte.x13; Byte.x14; Byte.x15; Byte.x16; Byte.x17].

Definition smallBytes : list Byte.byte := [Byte.x01; Byte.x02; Byte.x03; Byte.x04].

Definition world : World :=
  {| settings := Some {| project_logo := None; public_background := None;
                         public_foreground := None |};
     files := {[ photoId := photo; posterId := poster; scanId := scan;
                chartId := chart ]};
     readable := fun _ => true;
     drivers := {[ "local" := "local"; "oss" := "aliyunoss" ]};
     disks := {[ ("local", "photo.jpg") := photoBytes;
                 ("local", "poster.jpg") := smallBytes;
                 ("oss", "scan.jpg") := smallBytes;
                 ("oss", "chart.png") := smallBytes ]};
     render := fun _ bytes => rev bytes;
     publicUrl := fun disk name => "https://" +:+ disk +:+ ".example.com/" +:+ name |}.

Definition resize (fit : string) (w h : Z) : Transformation :=
  {| method := "resize";
     args := [JObj [("width", JNum w); ("height", JNum h); ("fit", JStr fit)]] |}.

Definition rotate (angle : Z) : Transformation :=
  {| method := "rotate"; args := [JNum angle] |}.

Definition flip : Transformation := {| method := "flip"; args := [] |}.

Definition encode (t : Transformation) : JsVal := JArr (JStr (method t) :: args t).

(** A request for the given transforms, with no suffix. *)
Definition ask (transforms : list Transformation) : TransformationRequest :=
  {| request := JObj [("transforms", JArr (map encode transforms))]; suffix := None |}.

(** One request for a resized [photo], inside the gate: its slot taken,
    its transform not yet started; one of the two slots is left. *)
Definition busy : Process :=
  {| free := 1;
     tasks := [InFlight 1
                 (finallyRelease
                    (transformAsset host photo (Some "image/jpeg")
                       [resize "cover" 300 200] "photo__resize.jpg" None))] |}.

End Demo.

(** ** Slot discipline of a program *)

(** [Quiet putOk p]: [p] never touches the semaphore, and writes to a disk
    only if [putOk]. *)
Fixpoint Quiet {A : Type} (putOk : bool) (p : Prog A) : Prop :=
  match p with
  | Ret _ | Throw _ => True
  | Call c k => (isPutCmd c = true -> putOk = true) /\ forall r, Quiet putOk (k r)
  | Acquire _ | Release _ => False
  end.

(** [Balanced held p]: started with [held] slots, [p] acquires only when it
    holds none, writes and releases only when it holds one, and ends
    holding none, whatever the collaborators answer. *)
Fixpoint Balanced {A : Type} (held : nat) (p : Prog A) : Prop :=
  match p with
  | Ret _ | Throw _ => held = 0%nat
  | Call c k => (isPutCmd c = true -> held = 1%nat) /\ forall r, Balanced held (k r)
  | Acquire k => held = 0%nat /\ Balanced 1 k
  | Release k => held = 1%nat /\ Balanced 0 k
  end.

Definition BalancedTask (t : Task) : Prop :=
  match t with InFlight held code => Balanced held code end.

(** The fit modes the rewrite has a case for. *)
Definition supportedFits : list string :=
  ["contain"; "cover"; "inside"; "outside"; "fill"].

(** ** Vocabulary of the statements *)

Definition onlyStart (s : Z) : Range := {| start := Some s; end_ := None |}.
Definition onlyEnd (e : Z) : Range := {| start := None; end_ := Some e |}.
Definition bothBounds (s e : Z) : Range := {| start := Some s; end_ := Some e |}.

(** In world [w] the request for [id] gets past the identifier check and
    the access check, and [file] is its record. *)
Definition cleared (host : Host) (service : AssetsService) (w : World)
    (id : string) (file : File) : Prop :=
  validateUUID host id 4 = true
  /\ (includes (systemPublicKeys (settings w)) id = true
      \/ isAdmin service = true \/ readable w id = true)
  /\ files w !! id = Some file.

(** The original's bytes are on its disk. *)
Definition stored (w : World) (file : File) : Prop :=
  is_Some (disks w !! (storage file, filename_disk file)).

Definition outcome {A : Type} (x : World * list Event * (A + Exception)) : A + Exception :=
  x.2.

Definition events {A : Type} (x : World * list Event * (A + Exception)) : list Event :=
  x.1.2.

Definition after {A : Type} (x : World * list Event * (A + Exception)) : World :=
  x.1.1.

(** The events of the first lines of a cleared request. *)
Definition lookupEvents (service : AssetsService) (w : World) (id : string)
    (file : File) : list Event :=
  Called SelectSettings (inl (settings w))
  :: (if negb (includes (systemPublicKeys (settings w)) id) && negb (isAdmin service)
      then [Called (CheckAccess "read" "directus_files" id) (inl tt)]
      else [])
  ++ [Called (SelectFile id) (inl (Some file))].

Definition isRangeError {A : Type} (res : A + Exception) : bool :=
  match res with
  | inr (RangeNotSatisfiableException _) => true
  | _ => false
  end.

(** The stream a successful [getAsset] hands back. *)
Definition servedStream (res : AssetResponse + Exception) : option Stream :=
  match res with
  | inl response => Some (a_stream response)
  | inr _ => None
  end.

(** Where the variant of a request goes: its disk and file name. *)
Definition variantPath (host : Host) (file : File)
    (transformation : TransformationRequest) : string * string :=
  (storage file,
   assetFilename host file (resolvePreset host transformation file) transformation).

(** The method calls of every pipeline whose output a run wrote to a
    disk, in order. *)
Definition pipelineOf (ev : Event) : list (list Transformation) :=
  match ev with
  | Called (DiskPut _ _ (Piped _ transformer) _) _ => [calls transformer]
  | _ => []
  end.

Definition putPipelines (tr : list Event) : list (list Transformation) :=
  concat (map pipelineOf tr).

(** How a request with a malformed identifier ends, given the answer to
    the settings query. *)
Definition afterSettings (r : option Settings + Exception) : Exception :=
  match r with
  | inl _ => ForbiddenException
  | inr e => e
  end.

(** The slots held by all the requests in flight. *)
Definition totalHeld (ts : list Task) : nat := sum_list_with heldBy ts.

(** An operation the rewrite looks at: it has a method name and a truthy
    first argument ([if (method && args)]). *)
Definition effective (t : Transformation) : bool :=
  truthyStr (method t) && truthy (firstArg t).

(** The commands of a process string, each behind its slash. *)
Definition joinCmds (cmds : list string) : string :=
  fold_right (fun cmd acc => "/" +:+ cmd +:+ acc) "" cmds.

(** The range as the range block leaves it. *)
Definition normalized (range : option Range) (filesize : Z) : option Range :=
  option_map (fun r => normalizeRange r filesize) range.

(** The range, if any, passes the range block. *)
Definition acceptable (range : option Range) (filesize : Z) : Prop :=
  forall r, range = Some r -> rangeNotSatisfiable r filesize = false.

(** The demo world with the resized [photo] already stored. *)
Definition warmWorld : World :=
  setDisks Demo.world
    (<[("local", "photo__resize.jpg") := [Byte.x2a; Byte.x2b; Byte.x2c]]> (disks Demo.world)).

(** A well-formed identifier that no file record carries. *)
Definition strayId : string := "00000000-0000-4000-8000-000000000000".

(** ** Vocabulary of the executions *)

(** [Only ok p]: every call of [p] is of a command that satisfies [ok]. *)
Fixpoint Only {A : Type} (ok : forall X : Type, Cmd X -> Prop) (p : Prog A) : Prop :=
  match p with
  | Ret _ | Throw _ => True
  | Call c k => ok _ c /\ forall r, Only ok (k r)
  | Acquire k | Release k => Only ok k
  end.

Definition eventOk (ok : forall X : Type, Cmd X -> Prop) (ev : Event) : Prop :=
  match ev with
  | Called c _ => ok _ c
  | _ => True
  end.

(** The access check, any answer; the access check refused; the query of
    the file record. *)
Definition isAccessCmd {X : Type} (c : Cmd X) : bool :=
  match c with CheckAccess _ _ _ => true | _ => false end.

Definition isAccessCheck (ev : Event) : bool :=
  match ev with Called c _ => isAccessCmd c | _ => false end.

Definition isRefusal (ev : Event) : bool :=
  match ev with
  | Called c (inr _) => isAccessCmd c
  | _ => false
  end.

Definition isFileQuery (ev : Event) : bool :=
  match ev with
  | Called (SelectFile _) _ => true
  | _ => false
  end.

Definition notAccess : forall X : Type, Cmd X -> Prop :=
  fun X c => isAccessCmd c = false.

(** A write is the pipeline's output, put at the variant path of [file]
    with the content type of its record, from a pipeline limited to the
    square of the maximal dimension and reading sequentially. *)
Definition putAt (host : Host) (file : File) (transformation : TransformationRequest)
    : forall X : Type, Cmd X -> Prop :=
  fun X c =>
    match c with
    | DiskPut disk name content ty =>
        (disk, name) = variantPath host file transformation
        /\ ty = type file
        /\ exists source transformer,
            content = Piped source transformer
            /\ limitInputPixels transformer = maxDimension host ^ 2
            /\ sequentialRead transformer = true
    | _ => True
    end.

(** * Theorems *)

(** ** Variant suffix *)

Lemma truthyStr_true (s : string) : truthyStr s = true <-> s <> "".
Proof.
  unfold truthyStr. rewrite negb_true_iff. split.
  - intros H ->. discriminate.
  - intros H. apply String.eqb_neq. exact H.
Qed.

Lemma transforms_empty (ts : list Transformation) :
  (length ts =? 0)%nat = true <-> ts = [].
Proof.
  destruct ts; simpl; split; intros H; try reflexivity; discriminate.
Qed.

(** C1, as the code has it: no suffix for an empty operation list; for a
    non-empty list, [.suffix] when a non-empty suffix is given, and
    [__hash] when the suffix is absent or the empty string; equal lists
    with no suffix get the same suffix. *)
Theorem getAssetSuffix_cases (host : Host) (transforms transforms' : list Transformation)
    (suffix : option string) :
  (transforms = [] -> getAssetSuffix host transforms suffix = "")
  /\ (transforms <> [] ->
      forall s, suffix = Some s -> s <> "" ->
      getAssetSuffix host transforms suffix = "." +:+ s)
  /\ (transforms <> [] ->
      suffix = None \/ suffix = Some "" ->
      getAssetSuffix host transforms suffix = "__" +:+ hash host transforms)
  /\ (transforms = transforms' ->
      getAssetSuffix host transforms None = getAssetSuffix host transforms' None).
Proof.
  unfold getAssetSuffix. repeat split.
  - intros ->. reflexivity.
  - intros Hne s -> Hs.
    destruct (length transforms =? 0)%nat eqn:E.
    + apply transforms_empty in E. contradiction.
    + apply truthyStr_true in Hs. rewrite Hs. reflexivity.
  - intros Hne Hs.
    destruct (length transforms =? 0)%nat eqn:E.
    + apply transforms_empty in E. contradiction.
    + destruct Hs as [-> | ->]; reflexivity.
  - intros ->. reflexivity.
Qed.

Lemma getAssetSuffix_cases_witness :
  getAssetSuffix Demo.host [Demo.resize "cover" 300 200] (Some "thumb") = ".thumb"
  /\ getAssetSuffix Demo.host [Demo.resize "cover" 300 200] None = "__resize".
Proof.
  pose proof (getAssetSuffix_cases Demo.host [Demo.resize "cover" 300 200]
                [Demo.resize "cover" 300 200] (Some "thumb")) as (_ & H & _).
  pose proof (getAssetSuffix_cases Demo.host [Demo.resize "cover" 300 200]
                [Demo.resize "cover" 300 200] None) as (_ & _ & H' & _).
  split.
  - apply H; [discriminate | reflexivity | discriminate].
  - apply H'; [discriminate | left; reflexivity].
Defined.

(** C1 as stated fails: with the empty string as explicit suffix, a
    non-empty list gets the hash suffix, not [.] followed by the suffix. *)
Lemma getAssetSuffix_empty_suffix :
  getAssetSuffix Demo.host [Demo.resize "cover" 300 200] (Some "")
  = "__" +:+ hash Demo.host [Demo.resize "cover" 300 200]
  /\ getAssetSuffix Demo.host [Demo.resize "cover" 300 200] (Some "") <> "." +:+ "".
Proof.
  split; [reflexivity | discriminate].
Qed.

(** ** Provider URL rewrite *)

Lemma fitParam_unsupported (fit : JsVal) :
  (forall mode, In mode supportedFits -> fit <> JStr mode) -> fitParam fit = None.
Proof.
  intros H. destruct fit as [| | b | n | mode | items | props]; try reflexivity.
  unfold fitParam.
  repeat match goal with
         | |- context [String.eqb mode ?lit] =>
             destruct (String.eqb_spec mode lit) as [-> | _];
             [exfalso; eapply H; [| reflexivity]; simpl; tauto |]
         end.
  reflexivity.
Qed.

Lemma fitParam_supported (fit : JsVal) (mode : string) :
  In mode supportedFits -> fit = JStr mode -> is_Some (fitParam fit).
Proof.
  intros Hin ->. simpl in Hin.
  destruct Hin as [<- | [<- | [<- | [<- | [<- | []]]]]]; simpl; eauto.
Qed.

Lemma transformCmd_rejects (t : Transformation) :
  method t <> "resize"
  \/ (forall mode, In mode supportedFits -> getProp (firstArg t) "fit" <> JStr mode) ->
  transformCmd t = None.
Proof.
  unfold transformCmd, resizeCmd. intros [H | H].
  - apply String.eqb_neq in H. rewrite H. reflexivity.
  - rewrite (fitParam_unsupported _ H). destruct (String.eqb (method t) "resize"); reflexivity.
Qed.

Lemma buildProcess_rejects (transforms : list Transformation) :
  forall (process : string) (t : Transformation),
    In t transforms ->
    truthyStr (method t) = true -> truthy (firstArg t) = true ->
    transformCmd t = None ->
    buildProcess process transforms = None.
Proof.
  induction transforms as [| a rest IH]; intros process t Hin Hm Ha Hc.
  - destruct Hin.
  - simpl. destruct Hin as [-> | Hin].
    + rewrite Hm, Ha, Hc. reflexivity.
    + destruct (truthyStr (method a) && truthy (firstArg a)).
      * destruct (transformCmd a); [| reflexivity]. eapply IH; eauto.
      * eapply IH; eauto.
Qed.

(** C10, as the code has it.  A resize whose fit is contain, cover or
    inside carries the provider's mode [m_lfit], [m_fill], [m_lfit], and
    any of the five fit modes is accepted; a single such resize puts the
    command under [x-oss-process]; a list holding an operation with a
    method and a truthy first argument that is not a resize, or is a resize
    whose fit is none of the five, is answered by the empty string; an
    operation without a method name or a truthy first argument is
    skipped. *)
Theorem aliyun_rewrite_cases (host : Host) (url : string) (transforms : list Transformation) :
  (forall options mode token,
      In (mode, token) [("contain", "lfit"); ("cover", "fill"); ("inside", "lfit")] ->
      getProp options "fit" = JStr mode ->
      resizeCmd options
      = Some ("resize,m_" +:+ token
              +:+ sizeParam ",w_" (getProp options "width")
              +:+ sizeParam ",h_" (getProp options "height")))
  /\ (forall options mode,
      In mode supportedFits -> getProp options "fit" = JStr mode ->
      is_Some (resizeCmd options))
  /\ (forall t cmd,
      method t = "resize" -> truthy (firstArg t) = true ->
      resizeCmd (firstArg t) = Some cmd ->
      addAliyunOSSImageProcessParamsToURL host url [t]
      = beforeQuery url +:+ "?"
        +:+ searchParamsSet host (queryOf url) "x-oss-process" ("image/" +:+ cmd))
  /\ (forall t,
      In t transforms ->
      truthyStr (method t) = true -> truthy (firstArg t) = true ->
      method t <> "resize"
      \/ (forall mode, In mode supportedFits -> getProp (firstArg t) "fit" <> JStr mode) ->
      addAliyunOSSImageProcessParamsToURL host url transforms = "")
  /\ (forall t process,
      truthyStr (method t) && truthy (firstArg t) = false ->
      buildProcess process (t :: transforms) = buildProcess process transforms).
Proof.
  split; [| split; [| split; [| split]]].
  - intros options mode token Hin Hfit. unfold resizeCmd. rewrite Hfit.
    simpl in Hin. destruct Hin as [H | [H | [H | []]]]; inversion H; subst; reflexivity.
  - intros options mode Hin Hfit. unfold resizeCmd.
    destruct (fitParam_supported _ _ Hin Hfit) as [m ->]. eauto.
  - intros t cmd Hm Ha Hc. unfold addAliyunOSSImageProcessParamsToURL. simpl.
    unfold transformCmd. rewrite Hm, Ha, Hc. simpl. reflexivity.
  - intros t Hin Hm Ha Hrej. unfold addAliyunOSSImageProcessParamsToURL.
    rewrite (buildProcess_rejects transforms "" t Hin Hm Ha (transformCmd_rejects t Hrej)).
    reflexivity.
  - intros t process Hskip. simpl. rewrite Hskip. reflexivity.
Qed.

Lemma aliyun_rewrite_cases_witness :
  addAliyunOSSImageProcessParamsToURL Demo.host "https://oss.example.com/scan.jpg"
    [Demo.resize "cover" 300 200; Demo.rotate 90] = ""
  /\ resizeCmd (JObj [("width", JNum 300); ("fit", JStr "cover")]) = Some "resize,m_fill,w_300".
Proof.
  pose proof (aliyun_rewrite_cases Demo.host "https://oss.example.com/scan.jpg"
                [Demo.resize "cover" 300 200; Demo.rotate 90]) as (Hmap & _ & _ & Hrej & _).
  split.
  - apply (Hrej (Demo.rotate 90)).
    + simpl. right. left. reflexivity.
    + reflexivity.
    + reflexivity.
    + left. discriminate.
  - apply (Hmap (JObj [("width", JNum 300); ("fit", JStr "cover")]) "cover" "fill").
    + simpl. right. left. reflexivity.
    + reflexivity.
Defined.

(** C10 as stated fails: an operation other than resize that has no
    (truthy) first argument is skipped, and the URL comes back unchanged,
    not empty.  (The fragments for outside and fill are [,mfit] and
    [,fill]: they lack the [m_] key the other three carry.) *)
Lemma aliyun_rewrite_keeps_flip :
  method Demo.flip <> "resize"
  /\ addAliyunOSSImageProcessParamsToURL Demo.host "https://oss.example.com/scan.jpg" [Demo.flip]
     = "https://oss.example.com/scan.jpg"
  /\ addAliyunOSSImageProcessParamsToURL Demo.host "https://oss.example.com/scan.jpg" [Demo.flip]
     <> ""
  /\ resizeCmd (JObj [("fit", JStr "outside")]) = Some "resize,mfit"
  /\ resizeCmd (JObj [("fit", JStr "fill")]) = Some "resize,fill".
Proof.
  split; [discriminate | split; [reflexivity | split; [discriminate | split; reflexivity]]].
Qed.

(** ** Byte ranges *)

Lemma rangeNotSatisfiable_spec (range : Range) (filesize : Z) :
  rangeNotSatisfiable range filesize = true
  <-> (start range = None /\ end_ range = None)
      \/ (exists s e, start range = Some s /\ end_ range = Some e /\ e <= s)
      \/ (exists s, start range = Some s /\ filesize <= s)
      \/ (exists e, end_ range = Some e /\ e <= 0).
Proof.
  unfold rangeNotSatisfiable, missingRangeLimits, endBeforeStart, startOverflow,
    endUnderflow, isUndefined, geNum, leNum.
  destruct range as [[s |] [e |]]; simpl;
    rewrite ?orb_true_iff, ?andb_true_iff, ?Z.leb_le; naive_solver lia.
Qed.

(** ** Runs in the reference environment *)

Lemma run_bind {A B : Type} (p : Prog A) (f : A -> Prog B) :
  forall w : World,
    run w (bind p f)
    = match run w p with
      | (w1, tr1, inl a) =>
          match run w1 (f a) with (w2, tr2, res) => (w2, tr1 ++ tr2, res) end
      | (w1, tr1, inr e) => (w1, tr1, inr e)
      end.
Proof.
  induction p as [a | e | X c k IH | k IH | k IH]; intros w; simpl.
  - destruct (run w (f a)) as [[w2 tr2] res]. reflexivity.
  - reflexivity.
  - destruct (respond w c) as [w1 r]. rewrite IH.
    destruct (run w1 (k r)) as [[w2 tr] [a | e]]; [| reflexivity].
    destruct (run w2 (f a)) as [[w3 tr3] res]. reflexivity.
  - rewrite IH. destruct (run w k) as [[w2 tr] [a | e]]; [| reflexivity].
    destruct (run w2 (f a)) as [[w3 tr3] res]. reflexivity.
  - rewrite IH. destruct (run w k) as [[w2 tr] [a | e]]; [| reflexivity].
    destruct (run w2 (f a)) as [[w3 tr3] res]. reflexivity.
Qed.

(** A cleared request gets its file record and leaves the world as it
    was. *)
Lemma run_lookupFile (host : Host) (service : AssetsService) (w : World)
    (id : string) (file : File) :
  cleared host service w id file ->
  run w (lookupFile host service id) = (w, lookupEvents service w id file, inl file).
Proof.
  intros (Hid & Hacc & Hfile). unfold lookupFile, lookupEvents. simpl.
  rewrite Hid. simpl.
  destruct (includes (systemPublicKeys (settings w)) id) eqn:Hin; simpl.
  - rewrite Hfile. reflexivity.
  - destruct (isAdmin service) eqn:Hadm; simpl.
    + rewrite Hfile. reflexivity.
    + destruct Hacc as [Hacc | [Hacc | Hacc]]; try discriminate.
      rewrite Hacc. simpl. rewrite Hfile. reflexivity.
Qed.

Lemma retype_storage (host : Host) (file : File) (ts : list Transformation) (name : string) :
  storage (retype host file ts name) = storage file.
Proof. unfold retype. destruct (truthyOpt _); reflexivity. Qed.

Lemma retype_filename (host : Host) (file : File) (ts : list Transformation) (name : string) :
  filename_disk (retype host file ts name) = filename_disk file.
Proof. unfold retype. destruct (truthyOpt _); reflexivity. Qed.

Lemma retype_refused (host : Host) (file : File) (ts : list Transformation) (name : string) :
  refused host (retype host file ts name) = refused host file.
Proof. unfold retype. destruct (truthyOpt _); reflexivity. Qed.

(** Past the range block, a run never ends in a range error. *)
Lemma serveAsset_no_range_error (host : Host) (w : World) (file : File)
    (transformation : TransformationRequest) (range : option Range) :
  isRangeError (outcome (run w (serveAsset host file transformation range))) = false.
Proof.
  unfold serveAsset, outcome.
  destruct (transformable _ _); simpl.
  - destruct (bool_decide _); simpl.
    + destruct (disks w !! _); reflexivity.
    + destruct (refused _ _); simpl; [reflexivity |].
      rewrite retype_storage, retype_filename.
      destruct (disks w !! (storage file, filename_disk file)); simpl; [| reflexivity].
      rewrite lookup_insert_eq. reflexivity.
  - destruct (disks w !! _); reflexivity.
Qed.

(** A cleared request whose original is stored: the run is the lookup,
    the existence check, and then the range block and the delivery. *)
Lemma run_getAsset (host : Host) (service : AssetsService) (w : World) (id : string)
    (file : File) (transformation : TransformationRequest) (range : option Range) :
  cleared host service w id file -> stored w file ->
  run w (getAsset host service id transformation range)
  = match run w (let* r := checkRange range (filesize file) in
                 serveAsset host file transformation r) with
    | (w', tr, res) =>
        (w', lookupEvents service w id file
             ++ Called (DiskExists (storage file) (filename_disk file)) (inl true) :: tr,
         res)
    end.
Proof.
  intros Hc Hs. unfold getAsset. rewrite run_bind, (run_lookupFile _ _ _ _ _ Hc).
  simpl. rewrite (bool_decide_eq_true_2 _ Hs). simpl.
  destruct (run w _) as [[w' tr] res]. reflexivity.
Qed.

Lemma run_getAsset_rejected (host : Host) (service : AssetsService) (w : World) (id : string)
    (file : File) (transformation : TransformationRequest) (range : Range) :
  cleared host service w id file -> stored w file ->
  rangeNotSatisfiable range (filesize file) = true ->
  outcome (run w (getAsset host service id transformation (Some range)))
  = inr (RangeNotSatisfiableException range).
Proof.
  intros Hc Hs Hr. rewrite (run_getAsset _ _ _ _ _ _ _ Hc Hs).
  unfold checkRange. rewrite Hr. reflexivity.
Qed.

Lemma run_getAsset_accepted (host : Host) (service : AssetsService) (w : World) (id : string)
    (file : File) (transformation : TransformationRequest) (range : Range) :
  cleared host service w id file -> stored w file ->
  rangeNotSatisfiable range (filesize file) = false ->
  isRangeError (outcome (run w (getAsset host service id transformation (Some range)))) = false.
Proof.
  intros Hc Hs Hr. rewrite (run_getAsset _ _ _ _ _ _ _ Hc Hs).
  unfold checkRange. rewrite Hr. simpl.
  pose proof (serveAsset_no_range_error host w file transformation
                (Some (normalizeRange range (filesize file)))) as H.
  unfold outcome in *.
  destruct (run w (serveAsset _ _ _ _)) as [[w' tr] res]. exact H.
Qed.

Lemma demo_cleared (id : string) (file : File) :
  Demo.isUuidV4 id 4 = true -> files Demo.world !! id = Some file ->
  cleared Demo.host Demo.service Demo.world id file.
Proof.
  intros Hid Hfile. split; [exact Hid | split; [right; right; reflexivity | exact Hfile]].
Defined.

(** C5, as the code has it: a cleared request with a range is refused
    with RangeNotSatisfiable exactly when both bounds are absent, or both
    are present and end <= start, or start is present and start >=
    filesize, or end is present and end <= 0, whether or not start is
    present; a range with both bounds, 0 <= start < end and start <
    filesize is never refused. *)
Theorem range_rejection (host : Host) (service : AssetsService) (w : World) (id : string)
    (file : File) (transformation : TransformationRequest) (range : Range) :
  cleared host service w id file -> stored w file ->
  (isRangeError (outcome (run w (getAsset host service id transformation (Some range)))) = true
   <-> (start range = None /\ end_ range = None)
       \/ (exists s e, start range = Some s /\ end_ range = Some e /\ e <= s)
       \/ (exists s, start range = Some s /\ filesize file <= s)
       \/ (exists e, end_ range = Some e /\ e <= 0))
  /\ (rangeNotSatisfiable range (filesize file) = true ->
      outcome (run w (getAsset host service id transformation (Some range)))
      = inr (RangeNotSatisfiableException range))
  /\ (forall s e,
      range = bothBounds s e -> 0 <= s < e -> s < filesize file ->
      isRangeError (outcome (run w (getAsset host service id transformation (Some range))))
      = false).
Proof.
  intros Hc Hs. split; [| split].
  - rewrite <- rangeNotSatisfiable_spec.
    destruct (rangeNotSatisfiable range (filesize file)) eqn:Hr.
    + rewrite (run_getAsset_rejected _ _ _ _ _ _ _ Hc Hs Hr). simpl. tauto.
    + rewrite (run_getAsset_accepted _ _ _ _ _ _ _ Hc Hs Hr). tauto.
  - intros Hr. exact (run_getAsset_rejected _ _ _ _ _ _ _ Hc Hs Hr).
  - intros s e -> Hse Hfs. apply (run_getAsset_accepted _ _ _ _ file); try assumption.
    destruct (rangeNotSatisfiable _ _) eqn:Hr; [| reflexivity].
    apply rangeNotSatisfiable_spec in Hr. simpl in Hr.
    destruct Hr as [[Hr _] | [(s0 & e0 & H1 & H2 & Hle) | [(s0 & H1 & Hle) | (e0 & H2 & Hle)]]];
      try discriminate; simplify_eq; lia.
Qed.

Lemma range_rejection_witness :
  isRangeError
    (outcome (run Demo.world
                (getAsset Demo.host Demo.service Demo.photoId (Demo.ask [])
                   (Some (bothBounds 2 20))))) = false.
Proof.
  refine (proj2 (proj2 (range_rejection Demo.host Demo.service Demo.world Demo.photoId
                          Demo.photo (Demo.ask []) (bothBounds 2 20) _ _)) 2 20 _ _ _).
  - apply demo_cleared; reflexivity.
  - eexists. reflexivity.
  - reflexivity.
  - lia.
  - simpl. lia.
Defined.

(** C5 as stated fails, twice.  On a file of eight bytes the range 8..20
    has both bounds and 0 <= start < end, and is refused; the range -5..0
    meets none of the four stated conditions (both bounds are present,
    end > start, start < filesize), and is refused. *)
Lemma range_rejection_more :
  outcome (run Demo.world
             (getAsset Demo.host Demo.service Demo.photoId (Demo.ask [])
                (Some (bothBounds 8 20))))
  = inr (RangeNotSatisfiableException (bothBounds 8 20))
  /\ outcome (run Demo.world
                (getAsset Demo.host Demo.service Demo.photoId (Demo.ask [])
                   (Some (bothBounds (-5) 0))))
     = inr (RangeNotSatisfiableException (bothBounds (-5) 0))
  /\ filesize Demo.photo = 8.
Proof.
  split; [vm_compute; reflexivity | split; [vm_compute; reflexivity | reflexivity]].
Qed.

Lemma normalizeRange_onlyStart (s filesize : Z) :
  s <> 0 -> normalizeRange (onlyStart s) filesize = bothBounds (Z.max 0 s) (filesize - 1).
Proof.
  intros Hs. unfold normalizeRange, normalizeEnd, normalizeStart, onlyStart, bothBounds. simpl.
  destruct (Z.eqb_spec s 0) as [-> | _]; [contradiction |]. simpl.
  destruct (Z.ltb_spec s 0); f_equal; f_equal; lia.
Qed.

(** C6 at its failing input: with only start = 0 the range is accepted
    (for a non-empty file) and normalization leaves end unset; the stream
    served for the eight-byte demo file is opened with end unset.  For any
    other start the claim holds: end becomes filesize - 1 and a negative
    start becomes 0. *)
Theorem start_zero_keeps_end_unset :
  (forall filesize, normalizeRange (onlyStart 0) filesize = onlyStart 0)
  /\ (forall filesize, 0 < filesize -> rangeNotSatisfiable (onlyStart 0) filesize = false)
  /\ (forall filesize, 0 < filesize ->
      checkRange (Some (onlyStart 0)) filesize = Ret (Some (onlyStart 0)))
  /\ servedStream
       (outcome (run Demo.world
                   (getAsset Demo.host Demo.service Demo.photoId (Demo.ask [])
                      (Some (onlyStart 0)))))
     = Some (FileStream "local" "photo.jpg" (Some (onlyStart 0)))
  /\ (forall s filesize,
      s <> 0 -> normalizeRange (onlyStart s) filesize = bothBounds (Z.max 0 s) (filesize - 1)).
Proof.
  split; [| split; [| split; [| split]]].
  - intros filesize. reflexivity.
  - intros filesize H. unfold rangeNotSatisfiable, startOverflow, onlyStart. simpl.
    destruct (Z.leb_spec filesize 0); [lia | reflexivity].
  - intros filesize H. unfold checkRange, rangeNotSatisfiable, startOverflow, onlyStart. simpl.
    destruct (Z.leb_spec filesize 0); [lia | reflexivity].
  - vm_compute. reflexivity.
  - apply normalizeRange_onlyStart.
Qed.

(** C7: an end-only request of N bytes, N positive and at least the file
    size, is accepted and normalized to start = 0 and end = filesize - 1. *)
Theorem tail_request_covers_file (n filesize : Z) :
  0 < n -> filesize <= n ->
  rangeNotSatisfiable (onlyEnd n) filesize = false
  /\ normalizeRange (onlyEnd n) filesize = bothBounds 0 (filesize - 1)
  /\ checkRange (Some (onlyEnd n)) filesize = Ret (Some (bothBounds 0 (filesize - 1))).
Proof.
  intros Hn Hfs.
  assert (Hok : rangeNotSatisfiable (onlyEnd n) filesize = false).
  { unfold rangeNotSatisfiable, endUnderflow, onlyEnd. simpl.
    destruct (Z.leb_spec n 0); [lia | reflexivity]. }
  assert (Hnorm : normalizeRange (onlyEnd n) filesize = bothBounds 0 (filesize - 1)).
  { unfold normalizeRange, normalizeEnd, normalizeStart, onlyEnd, bothBounds. simpl.
    destruct (Z.eqb_spec n 0); [lia |]. simpl.
    destruct (Z.leb_spec filesize (filesize - 1)); [lia |]. simpl.
    destruct (Z.eqb_spec (filesize - n) 0) as [E | E]; simpl.
    - rewrite E. reflexivity.
    - destruct (Z.ltb_spec (filesize - n) 0); [reflexivity | lia]. }
  split; [exact Hok | split; [exact Hnorm |]].
  unfold checkRange. rewrite Hok, Hnorm. reflexivity.
Qed.

Lemma tail_request_covers_file_witness :
  rangeNotSatisfiable (onlyEnd 50) 8 = false
  /\ normalizeRange (onlyEnd 50) 8 = bothBounds 0 (8 - 1)
  /\ checkRange (Some (onlyEnd 50)) 8 = Ret (Some (bothBounds 0 (8 - 1))).
Proof.
  apply (tail_request_covers_file 50 8); lia.
Defined.

(** ** Identifier check *)

(** A run in the reference environment is one of the executions. *)
Lemma run_Exec {A : Type} (p : Prog A) :
  forall w : World, Exec p (events (run w p)) (outcome (run w p)).
Proof.
  unfold events, outcome.
  induction p as [a | e | X c k IH | k IH | k IH]; intros w; simpl.
  - split; reflexivity.
  - split; reflexivity.
  - destruct (respond w c) as [w1 r]. specialize (IH r w1).
    destruct (run w1 (k r)) as [[w2 tr] res]. simpl in *. eauto.
  - specialize (IH w). destruct (run w k) as [[w2 tr] res]. simpl in *. eauto.
  - specialize (IH w). destruct (run w k) as [[w2 tr] res]. simpl in *. eauto.
Qed.

Lemma Exec_lookupFile_invalid {B : Type} (host : Host) (service : AssetsService)
    (id : string) (f : File -> Prog B) (tr : list Event) (res : B + Exception) :
  validateUUID host id 4 = false ->
  Exec (bind (lookupFile host service id) f) tr res
  <-> exists r, tr = [Called SelectSettings r] /\ res = inr (afterSettings r).
Proof.
  intros Hid. unfold lookupFile. simpl. split.
  - intros (r & tr' & -> & H). exists r.
    destruct r as [s | e]; simpl in *.
    + rewrite Hid in H. simpl in H. destruct H as [-> ->]. split; reflexivity.
    + destruct H as [-> ->]. split; reflexivity.
  - intros (r & -> & ->). exists r, []. split; [reflexivity |].
    destruct r as [s | e]; simpl.
    + rewrite Hid. simpl. split; reflexivity.
    + split; reflexivity.
Qed.

(** C3, as the code has it: for an identifier that is not a version-4
    UUID, every execution of [getAsset] and of [getUrl] consists of the one
    query of the settings row and nothing else, so one database call and no
    storage call; it fails with Forbidden, or with the error of that query
    if the query fails.  Such executions exist for every answer. *)
Theorem invalid_uuid_forbidden (host : Host) (service : AssetsService) (id : string)
    (transformation : TransformationRequest) (range : option Range) (tr : list Event) :
  validateUUID host id 4 = false ->
  (forall res, Exec (getAsset host service id transformation range) tr res
               <-> exists r, tr = [Called SelectSettings r] /\ res = inr (afterSettings r))
  /\ (forall res, Exec (getUrl host service id transformation) tr res
                  <-> exists r, tr = [Called SelectSettings r] /\ res = inr (afterSettings r))
  /\ ((exists res, Exec (getAsset host service id transformation range) tr res)
      \/ (exists res, Exec (getUrl host service id transformation) tr res) ->
      existsb isStorageCall tr = false /\ length (filter (fun ev => isDatabaseCall ev = true) tr) = 1%nat).
Proof.
  intros Hid. split; [| split].
  - intros res. apply Exec_lookupFile_invalid. exact Hid.
  - intros res. apply Exec_lookupFile_invalid. exact Hid.
  - intros [[res H] | [res H]];
      apply (Exec_lookupFile_invalid _ _ _ _ _ _ Hid) in H;
      destruct H as (r & -> & _); split; reflexivity.
Qed.

Lemma invalid_uuid_forbidden_witness :
  Exec (getAsset Demo.host Demo.service "not-a-uuid" (Demo.ask []) None)
    [Called SelectSettings (inl None)] (inr ForbiddenException).
Proof.
  apply (invalid_uuid_forbidden Demo.host Demo.service "not-a-uuid" (Demo.ask []) None
           [Called SelectSettings (inl None)]).
  - reflexivity.
  - exists (inl None). split; reflexivity.
Defined.

(** C3 as stated fails: the request with id [not-a-uuid] is refused with
    Forbidden after a database call, the query of the settings row. *)
Lemma invalid_uuid_queries_settings :
  validateUUID Demo.host "not-a-uuid" 4 = false
  /\ outcome (run Demo.world (getAsset Demo.host Demo.service "not-a-uuid" (Demo.ask []) None))
     = inr ForbiddenException
  /\ events (run Demo.world (getAsset Demo.host Demo.service "not-a-uuid" (Demo.ask []) None))
     = [Called SelectSettings (inl (settings Demo.world))]
  /\ existsb isDatabaseCall
       (events (run Demo.world (getAsset Demo.host Demo.service "not-a-uuid" (Demo.ask []) None)))
     = true.
Proof.
  repeat split; reflexivity.
Qed.

(** ** Dimension guard *)

Lemma lookupEvents_quiet (service : AssetsService) (w : World) (id : string) (file : File)
    (rest : list Event) :
  existsb isAcquired rest = false -> existsb isPut rest = false ->
  existsb isAcquired (lookupEvents service w id file ++ rest) = false
  /\ existsb isPut (lookupEvents service w id file ++ rest) = false.
Proof.
  intros Ha Hp. unfold lookupEvents.
  destruct (negb _ && negb _); simpl; rewrite Ha, Hp; split; reflexivity.
Qed.

Lemma run_serveAsset_refused (host : Host) (w : World) (file : File)
    (transformation : TransformationRequest) (range : option Range) :
  transformable (type file) (resolvePreset host transformation file) = true ->
  disks w !! variantPath host file transformation = None ->
  refused host file = true ->
  run w (serveAsset host file transformation range)
  = (w, [Called (DiskExists (variantPath host file transformation).1
                   (variantPath host file transformation).2) (inl false)],
     inr (IllegalAssetTransformation illegalMessage)).
Proof.
  intros Ht Hv Hr. unfold serveAsset, variantPath in *. rewrite Ht. simpl.
  rewrite Hv. simpl. rewrite retype_refused, Hr. reflexivity.
Qed.

Lemma run_fallbackUrl_refused (host : Host) (w : World) (file : File)
    (transformation : TransformationRequest) :
  disks w !! variantPath host file transformation = None ->
  refused host file = true ->
  run w (fallbackUrl host file transformation (resolvePreset host transformation file))
  = (w, [Called (DiskExists (variantPath host file transformation).1
                   (variantPath host file transformation).2) (inl false)],
     inr (IllegalAssetTransformation illegalMessage)).
Proof.
  intros Hv Hr. unfold fallbackUrl, variantPath in *. cbn.
  rewrite Hv. cbn. rewrite retype_refused, Hr. reflexivity.
Qed.

(** C4, as the code has it.  Take a cleared request for a transformable
    file whose width or height is unknown or above the maximum, with no
    variant stored.  [getAsset], once the original is found and the range
    accepted, fails with IllegalAssetTransformation; so does [getUrl] when
    it reaches its local fallback (the disk is the provider's and the
    provider URL came back empty).  In both the run acquires no slot and
    writes nothing: the world is unchanged and the variant path stays
    empty. *)
Theorem dimension_guard_before_gate (host : Host) (service : AssetsService) (w : World)
    (id : string) (file : File) (transformation : TransformationRequest)
    (range : option Range) :
  cleared host service w id file ->
  transformable (type file) (resolvePreset host transformation file) = true ->
  disks w !! variantPath host file transformation = None ->
  refused host file = true ->
  (stored w file ->
   (forall r, range = Some r -> rangeNotSatisfiable r (filesize file) = false) ->
   exists tr,
     run w (getAsset host service id transformation range)
     = (w, tr, inr (IllegalAssetTransformation illegalMessage))
     /\ existsb isAcquired tr = false /\ existsb isPut tr = false)
  /\ (drivers w !! storage file = Some "aliyunoss" ->
      offloadUrl host file (publicUrl w (storage file) (filename_disk file))
        (resolvePreset host transformation file) = "" ->
      exists tr,
        run w (getUrl host service id transformation)
        = (w, tr, inr (IllegalAssetTransformation illegalMessage))
        /\ existsb isAcquired tr = false /\ existsb isPut tr = false).
Proof.
  intros Hc Ht Hv Hr. split.
  - intros Hs Hrange. rewrite (run_getAsset _ _ _ _ _ _ _ Hc Hs).
    assert (Hchk : exists r', checkRange range (filesize file) = Ret r').
    { unfold checkRange. destruct range as [r |]; [| eauto].
      rewrite (Hrange r eq_refl). eauto. }
    destruct Hchk as [r' ->]. simpl.
    rewrite (run_serveAsset_refused _ _ _ _ _ Ht Hv Hr).
    eexists. split; [reflexivity |].
    change (?l ++ ?x :: ?r) with (l ++ ([x] ++ r)).
    apply lookupEvents_quiet; reflexivity.
  - intros Hd Hoff. unfold getUrl.
    rewrite run_bind, (run_lookupFile _ _ _ _ _ Hc). simpl.
    rewrite Hd. simpl. rewrite Ht, Hoff.
    change (negb (truthyStr "")) with true. cbv iota.
    rewrite (run_fallbackUrl_refused _ _ _ _ Hv Hr).
    eexists. split; [reflexivity |].
    apply lookupEvents_quiet; reflexivity.
Qed.

Lemma dimension_guard_before_gate_witness :
  exists tr,
    run Demo.world
      (getAsset Demo.host Demo.service Demo.posterId
         (Demo.ask [Demo.resize "cover" 300 200]) None)
    = (Demo.world, tr, inr (IllegalAssetTransformation illegalMessage))
    /\ existsb isAcquired tr = false /\ existsb isPut tr = false.
Proof.
  refine (proj1 (dimension_guard_before_gate Demo.host Demo.service Demo.world Demo.posterId
                   Demo.poster (Demo.ask [Demo.resize "cover" 300 200]) None _ _ _ _) _ _).
  - apply demo_cleared; reflexivity.
  - reflexivity.
  - vm_compute. reflexivity.
  - reflexivity.
  - eexists. vm_compute. reflexivity.
  - intros r H. discriminate H.
Defined.

(** C4 as stated fails for [getUrl]: for a transformable file of unknown
    width and height on the provider's disk, with no variant stored, a
    resize is offloaded to the provider and the call succeeds with the
    rewritten URL. *)
Lemma unknown_size_offloaded :
  transformable (type Demo.scan)
    (resolvePreset Demo.host (Demo.ask [Demo.resize "cover" 300 200]) Demo.scan) = true
  /\ refused Demo.host Demo.scan = true
  /\ disks Demo.world
       !! variantPath Demo.host Demo.scan (Demo.ask [Demo.resize "cover" 300 200]) = None
  /\ outcome (run Demo.world
                (getUrl Demo.host Demo.service Demo.scanId
                   (Demo.ask [Demo.resize "cover" 300 200])))
     = inl {| u_url := "https://oss.example.com/scan.jpg?x-oss-process=image%2Fresize%2Cm_fill%2Cw_300%2Ch_200";
              u_file := Some Demo.scan |}.
Proof.
  split; [reflexivity | split; [reflexivity | split; vm_compute; reflexivity]].
Qed.

(** ** Pipelines *)

Lemma calls_fold_invoke (transforms : list Transformation) :
  forall transformer : Transformer,
    calls (fold_left invoke transforms transformer) = calls transformer ++ transforms.
Proof.
  induction transforms as [| t rest IH]; intros transformer; simpl.
  - rewrite app_nil_r. reflexivity.
  - rewrite IH. simpl. rewrite <- app_assoc. reflexivity.
Qed.

Lemma calls_assetTransformer (host : Host) (transforms : list Transformation) :
  calls (assetTransformer host transforms)
  = if hasRotate transforms then transforms else autoOrient :: transforms.
Proof.
  unfold assetTransformer. rewrite calls_fold_invoke.
  destruct (hasRotate transforms); reflexivity.
Qed.

Lemma calls_urlTransformer (host : Host) (transforms : list Transformation) :
  calls (urlTransformer host transforms) = autoOrient :: transforms.
Proof.
  unfold urlTransformer. rewrite calls_fold_invoke. reflexivity.
Qed.

(** C9 at its failing input.  The pipeline of [getAsset] starts with the
    auto-orientation exactly when the list holds no rotate, and then calls
    the operations in order; the pipeline of [getUrl] starts with the
    auto-orientation always.  For the request [rotate 90] on a file of the
    provider's disk, the local fallback of [getUrl] writes the output of
    the calls [rotate()], [rotate(90)]; [getAsset] for the same request
    writes the output of [rotate(90)] alone. *)
Theorem getUrl_always_auto_orients :
  (forall host transforms,
      calls (assetTransformer host transforms)
      = if hasRotate transforms then transforms else autoOrient :: transforms)
  /\ (forall host transforms,
      calls (urlTransformer host transforms) = autoOrient :: transforms)
  /\ hasRotate [Demo.rotate 90] = true
  /\ putPipelines
       (events (run Demo.world
                  (getUrl Demo.host Demo.service Demo.chartId (Demo.ask [Demo.rotate 90]))))
     = [[autoOrient; Demo.rotate 90]]
  /\ putPipelines
       (events (run Demo.world
                  (getAsset Demo.host Demo.service Demo.chartId (Demo.ask [Demo.rotate 90])
                     None)))
     = [[Demo.rotate 90]].
Proof.
  split; [exact calls_assetTransformer | split; [exact calls_urlTransformer |]].
  split; [reflexivity | split; vm_compute; reflexivity].
Qed.

(** ** What the transform reads *)

Lemma run_transformAsset (host : Host) (w : World) (file : File)
    (originalType : option string) (transforms : list Transformation) (name : string)
    (range : option Range) (bytes : list Byte.byte) :
  disks w !! (storage file, filename_disk file) = Some bytes ->
  after (run w (runExclusive (transformAsset host file originalType transforms name range)))
  = setDisks w (<[(storage file, name) :=
                   render w (assetTransformer host transforms) (slice range bytes)]> (disks w)).
Proof.
  intros Hb. unfold runExclusive, transformAsset, after. simpl.
  rewrite Hb. simpl. rewrite lookup_insert_eq. reflexivity.
Qed.

(** A cleared request that has to build its variant: the bytes written at
    the variant path are the codec's output on the slice of the original
    that the caller's range, as normalized, cuts out. *)
Lemma variant_bytes (host : Host) (service : AssetsService) (w : World) (id : string)
    (file : File) (transformation : TransformationRequest) (range : option Range)
    (bytes : list Byte.byte) :
  cleared host service w id file ->
  disks w !! (storage file, filename_disk file) = Some bytes ->
  (forall r, range = Some r -> rangeNotSatisfiable r (filesize file) = false) ->
  transformable (type file) (resolvePreset host transformation file) = true ->
  disks w !! variantPath host file transformation = None ->
  refused host file = false ->
  disks (after (run w (getAsset host service id transformation range)))
    !! variantPath host file transformation
  = Some (render w (assetTransformer host (resolvePreset host transformation file))
            (slice (option_map (fun r => normalizeRange r (filesize file)) range) bytes)).
Proof.
  intros Hc Hb Hrange Ht Hv Hr.
  assert (Hs : stored w file) by (unfold stored; rewrite Hb; eauto).
  rewrite (run_getAsset _ _ _ _ _ _ _ Hc Hs).
  assert (Hchk : checkRange range (filesize file)
                 = Ret (option_map (fun r => normalizeRange r (filesize file)) range)).
  { unfold checkRange. destruct range as [r |]; [| reflexivity].
    rewrite (Hrange r eq_refl). reflexivity. }
  rewrite Hchk. simpl bind. unfold serveAsset, variantPath in *.
  rewrite Ht. simpl. rewrite Hv. simpl.
  rewrite retype_refused, Hr.
  match goal with
  | |- context [run w (runExclusive ?p)] =>
      pose proof (run_transformAsset host w
                    (retype host file (resolvePreset host transformation file)
                       (assetFilename host file (resolvePreset host transformation file)
                          transformation))
                    (type file) (resolvePreset host transformation file)
                    (assetFilename host file (resolvePreset host transformation file)
                       transformation)
                    (option_map (fun r => normalizeRange r (filesize file)) range) bytes) as Hrun;
      destruct (run w (runExclusive p)) as [[w2 tr2] res2]
  end.
  rewrite retype_storage, retype_filename in Hrun. specialize (Hrun Hb).
  unfold after in *. simpl in *. subst w2. simpl.
  rewrite lookup_insert_eq. reflexivity.
Qed.

(** C8 at its failing input.  For the same file and the same resize, with
    no variant stored, the request without a range writes the codec's
    output on all eight bytes of the original at the variant path; the
    request for bytes 2..3 writes the output on those two bytes, at the
    same path.  The original is opened with the caller's range
    ([DiskGetStream], before [DiskPut]). *)
Theorem variant_depends_on_range :
  disks (after (run Demo.world
                  (getAsset Demo.host Demo.service Demo.photoId
                     (Demo.ask [Demo.resize "cover" 300 200]) None)))
    !! ("local", "photo__resize.jpg")
  = Some (rev Demo.photoBytes)
  /\ disks (after (run Demo.world
                     (getAsset Demo.host Demo.service Demo.photoId
                        (Demo.ask [Demo.resize "cover" 300 200]) (Some (bothBounds 2 3)))))
       !! ("local", "photo__resize.jpg")
     = Some [Byte.x13; Byte.x12]
  /\ variantPath Demo.host Demo.photo (Demo.ask [Demo.resize "cover" 300 200])
     = ("local", "photo__resize.jpg")
  /\ (forall host file originalType transforms name range,
      exists k,
        transformAsset host file originalType transforms name range
        = Call (DiskGetStream (storage file) (filename_disk file) range) k
        /\ exists k',
            k (inl tt)
            = Call (DiskPut (storage file) name
                      (Piped (FileStream (storage file) (filename_disk file) range)
                         (assetTransformer host transforms))
                      originalType) k').
Proof.
  split; [vm_compute; reflexivity | split; [vm_compute; reflexivity | split; [reflexivity |]]].
  intros host file originalType transforms name range.
  unfold transformAsset. simpl. eexists. split; [reflexivity |]. simpl. eexists. reflexivity.
Qed.

(** ** The gate *)

Lemma Quiet_call {X : Type} (putOk : bool) (c : Cmd X) :
  (isPutCmd c = true -> putOk = true) -> Quiet putOk (call c).
Proof.
  intros H. unfold call. simpl. split; [exact H |]. intros [x | e]; exact I.
Qed.

Lemma Quiet_bind {A B : Type} (putOk : bool) (p : Prog A) (f : A -> Prog B) :
  Quiet putOk p -> (forall a, Quiet putOk (f a)) -> Quiet putOk (bind p f).
Proof.
  intros Hp Hf. induction p as [a | e | X c k IH | k IH | k IH]; simpl in *.
  - apply Hf.
  - exact I.
  - destruct Hp as [Hc Hk]. split; [exact Hc |]. intros r. apply IH, Hk.
  - destruct Hp.
  - destruct Hp.
Qed.

Lemma Balanced_bind {A B : Type} (p : Prog A) (f : A -> Prog B) :
  Quiet false p -> (forall a, Balanced 0 (f a)) -> Balanced 0 (bind p f).
Proof.
  intros Hp Hf. induction p as [a | e | X c k IH | k IH | k IH]; simpl in *.
  - apply Hf.
  - reflexivity.
  - destruct Hp as [Hc Hk]. split.
    + intros Hput. specialize (Hc Hput). discriminate Hc.
    + intros r. apply IH, Hk.
  - destruct Hp.
  - destruct Hp.
Qed.

Lemma Balanced_finallyRelease {A : Type} (body : Prog A) :
  Quiet true body -> Balanced 1 (finallyRelease body).
Proof.
  intros Hb. induction body as [a | e | X c k IH | k IH | k IH]; simpl in *.
  - split; reflexivity.
  - split; reflexivity.
  - destruct Hb as [_ Hk]. split; [reflexivity |]. intros r. apply IH, Hk.
  - destruct Hb.
  - destruct Hb.
Qed.

Lemma Balanced_runExclusive {A : Type} (body : Prog A) :
  Quiet true body -> Balanced 0 (runExclusive body).
Proof.
  intros Hb. unfold runExclusive. simpl. split; [reflexivity |].
  apply Balanced_finallyRelease, Hb.
Qed.

Ltac quiet :=
  repeat first
    [ apply Quiet_bind; [| intros ?]
    | apply Quiet_call; simpl; congruence
    | exact I
    | match goal with
      | |- Quiet _ (if ?b then _ else _) => destruct b
      | |- Quiet _ (match ?o with Some _ => _ | None => _ end) => destruct o
      end
    | progress simpl ].

Lemma Quiet_lookupFile (host : Host) (service : AssetsService) (id : string) :
  Quiet false (lookupFile host service id).
Proof. unfold lookupFile. quiet. Qed.

Lemma Quiet_checkRange (range : option Range) (filesize : Z) :
  Quiet false (checkRange range filesize).
Proof. unfold checkRange. quiet. Qed.

Lemma Quiet_transformAsset (host : Host) (file : File) (originalType : option string)
    (transforms : list Transformation) (name : string) (range : option Range) :
  Quiet true (transformAsset host file originalType transforms name range).
Proof. unfold transformAsset. quiet. Qed.

Lemma Quiet_transformUrl (host : Host) (file : File) (originalType : option string)
    (transforms : list Transformation) (name : string) :
  Quiet true (transformUrl host file originalType transforms name).
Proof. unfold transformUrl. quiet. Qed.

Ltac balanced_by known :=
  repeat first
    [ known
    | apply Balanced_runExclusive;
      first [apply Quiet_transformAsset | apply Quiet_transformUrl]
    | apply Balanced_bind;
      [first [apply Quiet_lookupFile | apply Quiet_checkRange
             | apply Quiet_call; simpl; congruence] | intros ?]
    | reflexivity
    | match goal with
      | |- Balanced _ (if ?b then _ else _) => destruct b
      end ].

Lemma Balanced_serveAsset (host : Host) (file : File)
    (transformation : TransformationRequest) (range : option Range) :
  Balanced 0 (serveAsset host file transformation range).
Proof. unfold serveAsset. balanced_by fail. Qed.

Lemma Balanced_getAsset (host : Host) (service : AssetsService) (id : string)
    (transformation : TransformationRequest) (range : option Range) :
  Balanced 0 (getAsset host service id transformation range).
Proof. unfold getAsset. balanced_by ltac:(apply Balanced_serveAsset). Qed.

Lemma Balanced_fallbackUrl (host : Host) (file : File)
    (transformation : TransformationRequest) (transforms : list Transformation) :
  Balanced 0 (fallbackUrl host file transformation transforms).
Proof. unfold fallbackUrl. balanced_by fail. Qed.

Lemma Balanced_getUrl (host : Host) (service : AssetsService) (id : string)
    (transformation : TransformationRequest) :
  Balanced 0 (getUrl host service id transformation).
Proof. unfold getUrl. balanced_by ltac:(apply Balanced_fallbackUrl). Qed.

Lemma Request_balanced (host : Host) (t : Task) :
  Request host t -> heldBy t = 0%nat /\ BalancedTask t.
Proof.
  intros [service id transformation range | service id transformation]; simpl.
  - split; [reflexivity | apply Balanced_getAsset].
  - split; [reflexivity | apply Balanced_getUrl].
Qed.

Lemma TaskStep_balanced (n n' : nat) (t t' : Task) :
  TaskStep n t n' t' -> BalancedTask t ->
  BalancedTask t' /\ (n + heldBy t = n' + heldBy t')%nat.
Proof.
  destruct t as [A held code]. destruct code as [a | e | X c k | k | k]; simpl.
  - intros [].
  - intros [].
  - intros (r & -> & ->) [_ Hk]. simpl. split; [apply Hk | reflexivity].
  - intros (-> & ->) [-> Hk]. simpl. split; [exact Hk | lia].
  - intros (-> & ->) [-> Hk]. simpl. split; [exact Hk | lia].
Qed.

Lemma totalHeld_app (l1 l2 : list Task) :
  totalHeld (l1 ++ l2) = (totalHeld l1 + totalHeld l2)%nat.
Proof. unfold totalHeld. apply sum_list_with_app. Qed.

(** Free slots plus held slots stay the capacity, and every request in
    flight keeps the slot discipline. *)
Lemma Reachable_invariant (host : Host) (p : Process) :
  Reachable host p ->
  (free p + totalHeld (tasks p) = ASSETS_TRANSFORM_MAX_CONCURRENT host)%nat
  /\ Forall BalancedTask (tasks p).
Proof.
  induction 1 as [| p q Hreach [Hsum Hbal] Hstep].
  - simpl. split; [unfold totalHeld; simpl; lia | constructor].
  - destruct Hstep as [n ts t Hreq | n n' before after_ t t' Hstep]; simpl in *.
    + destruct (Request_balanced host t Hreq) as [Hheld Ht]. split.
      * rewrite totalHeld_app. unfold totalHeld at 2. simpl. lia.
      * apply Forall_app. split; [exact Hbal | constructor; [exact Ht | constructor]].
    + apply Forall_app in Hbal. destruct Hbal as [Hb Hta].
      apply Forall_cons in Hta. destruct Hta as [Ht Ha].
      destruct (TaskStep_balanced _ _ _ _ Hstep Ht) as [Ht' Heq]. split.
      * rewrite totalHeld_app in *. unfold totalHeld in *. simpl in *. lia.
      * apply Forall_app. split; [exact Hb | constructor; assumption].
Qed.

Lemma gated_le_totalHeld (ts : list Task) :
  (length (filter (fun t => inGate t = true) ts) <= totalHeld ts)%nat.
Proof.
  unfold totalHeld. induction ts as [| t rest IH]; simpl; [lia |].
  rewrite filter_cons. unfold inGate at 1.
  destruct (decide ((0 <? heldBy t)%nat = true)) as [H | H]; simpl.
  - apply Nat.ltb_lt in H. lia.
  - lia.
Qed.

(** C2: in every state the process can reach, the requests inside the
    gate number at most ASSETS_TRANSFORM_MAX_CONCURRENT; a request about
    to write a variant holds a slot of the one semaphore; a request that
    has returned or thrown holds none. *)
Theorem transforms_bounded (host : Host) (p : Process) :
  Reachable host p ->
  (gated p <= ASSETS_TRANSFORM_MAX_CONCURRENT host)%nat
  /\ (forall t, In t (tasks p) -> aboutToPut t -> heldBy t = 1%nat)
  /\ (forall t, In t (tasks p) -> finished t -> heldBy t = 0%nat).
Proof.
  intros Hreach. destruct (Reachable_invariant host p Hreach) as [Hsum Hbal].
  rewrite Forall_forall in Hbal. split; [| split].
  - unfold gated. pose proof (gated_le_totalHeld (tasks p)). lia.
  - intros t Hin Hput. apply list_elem_of_In in Hin. specialize (Hbal t Hin).
    destruct t as [A held code]. destruct code as [a | e | X c k | k | k]; simpl in *;
      try contradiction.
    destruct Hbal as [Hc _]. apply Hc, Hput.
  - intros t Hin Hfin. apply list_elem_of_In in Hin. specialize (Hbal t Hin).
    destruct t as [A held code]. destruct code as [a | e | X c k | k | k]; simpl in *;
      try contradiction; exact Hbal.
Qed.

Lemma Reachable_call (host : Host) {A X : Type} (n held : nat) (c : Cmd X)
    (k : X + Exception -> Prog A) (r : X + Exception) :
  Reachable host (mkProcess n [InFlight held (Call c k)]) ->
  Reachable host (mkProcess n [InFlight held (k r)]).
Proof.
  intros H. eapply ReachStep; [exact H |].
  apply (Advance host n n [] [] (InFlight held (Call c k)) (InFlight held (k r))).
  simpl. exists r. split; reflexivity.
Defined.

Lemma Reachable_acquire (host : Host) {A : Type} (n held : nat) (k : Prog A) :
  Reachable host (mkProcess (S n) [InFlight held (Acquire k)]) ->
  Reachable host (mkProcess n [InFlight (S held) k]).
Proof.
  intros H. eapply ReachStep; [exact H |].
  apply (Advance host (S n) n [] [] (InFlight held (Acquire k)) (InFlight (S held) k)).
  simpl. split; reflexivity.
Defined.

Ltac answer H r :=
  lazymatch type of H with
  | Reachable ?h {| free := ?n; tasks := [InFlight ?held ?p] |} =>
      let p' := eval hnf in p in
      lazymatch p' with
      | Call ?c ?k =>
          let H' := fresh "H" in
          pose proof (Reachable_call h n held c k r H) as H';
          cbv beta in H'; clear H; rename H' into H
      end
  end.

(** The demo request reaches the gate: settings, access, file record,
    original found, variant not found, slot taken. *)
Lemma Reachable_busy : Reachable Demo.host Demo.busy.
Proof.
  assert (H : Reachable Demo.host
                (mkProcess 2
                   [InFlight 0 (getAsset Demo.host Demo.service Demo.photoId
                                  (Demo.ask [Demo.resize "cover" 300 200]) None)])).
  { apply (ReachStep Demo.host (boot Demo.host)); [apply ReachBoot |].
    apply (Arrive Demo.host 2 []). apply RequestAsset. }
  answer H (@inl (option Settings) Exception None).
  answer H (@inl unit Exception tt).
  answer H (@inl (option File) Exception (Some Demo.photo)).
  answer H (@inl bool Exception true).
  answer H (@inl bool Exception false).
  apply (Reachable_acquire Demo.host 1 0). exact H.
Qed.

Lemma transforms_bounded_witness :
  (gated Demo.busy <= ASSETS_TRANSFORM_MAX_CONCURRENT Demo.host)%nat
  /\ (forall t, In t (tasks Demo.busy) -> aboutToPut t -> heldBy t = 1%nat)
  /\ (forall t, In t (tasks Demo.busy) -> finished t -> heldBy t = 0%nat).
Proof.
  apply (transforms_bounded Demo.host Demo.busy). exact Reachable_busy.
Defined.

(** * Further properties of the service *)

(** ** Byte ranges, continued *)

Ltac range_cases :=
  unfold normalizeRange, normalizeEnd, normalizeStart, rangeNotSatisfiable,
    missingRangeLimits, endBeforeStart, startOverflow, endUnderflow, isUndefined,
    truthyNum, geNum, leNum, ltNum, onlyStart, onlyEnd, bothBounds in *;
  simpl in *;
  repeat match goal with
         | |- context [Z.eqb ?a ?b] => destruct (Z.eqb_spec a b); simpl in *
         | |- context [Z.leb ?a ?b] => destruct (Z.leb_spec a b); simpl in *
         | |- context [Z.ltb ?a ?b] => destruct (Z.ltb_spec a b); simpl in *
         | H : context [Z.eqb ?a ?b] |- _ => destruct (Z.eqb_spec a b); simpl in *
         | H : context [Z.leb ?a ?b] |- _ => destruct (Z.leb_spec a b); simpl in *
         | H : context [Z.ltb ?a ?b] |- _ => destruct (Z.ltb_spec a b); simpl in *
         end.

(** An accepted range on a non-empty file is normalized into the file: the
    start is present and within 0 .. filesize - 1, and the end is either
    within start .. filesize - 1, or left unset, which happens only for
    the request with start 0 and no end. *)
Theorem normalized_range_in_file (range : Range) (filesize : Z) :
  0 < filesize -> rangeNotSatisfiable range filesize = false ->
  exists s,
    start (normalizeRange range filesize) = Some s /\ 0 <= s <= filesize - 1
    /\ match end_ (normalizeRange range filesize) with
       | Some e => s <= e <= filesize - 1
       | None => range = onlyStart 0
       end.
Proof.
  intros Hfs Hok. destruct range as [[s |] [e |]]; range_cases; try discriminate;
    try (exfalso; lia);
    try (eexists; split; [reflexivity |]; simpl; split; [lia |]; try lia;
         try (f_equal; f_equal; lia)).
Qed.

Lemma normalized_range_in_file_witness :
  exists s,
    start (normalizeRange (bothBounds (-3) 20) 8) = Some s /\ 0 <= s <= 8 - 1
    /\ match end_ (normalizeRange (bothBounds (-3) 20) 8) with
       | Some e => s <= e <= 8 - 1
       | None => bothBounds (-3) 20 = onlyStart 0
       end.
Proof.
  apply (normalized_range_in_file (bothBounds (-3) 20) 8); [lia | reflexivity].
Defined.

(** Normalizing twice is normalizing once, for every range and size. *)
Theorem normalizeRange_idempotent (range : Range) (filesize : Z) :
  normalizeRange (normalizeRange range filesize) filesize = normalizeRange range filesize.
Proof.
  destruct range as [[s |] [e |]]; range_cases; try reflexivity; try lia;
    try (f_equal; f_equal; lia).
Qed.

(** An end-only request of N bytes, 0 < N < filesize, is accepted and
    becomes the last N bytes: filesize - N .. filesize - 1. *)
Theorem tail_request_last_bytes (n filesize : Z) :
  0 < n < filesize ->
  rangeNotSatisfiable (onlyEnd n) filesize = false
  /\ normalizeRange (onlyEnd n) filesize = bothBounds (filesize - n) (filesize - 1)
  /\ forall bytes : list Byte.byte,
      Z.of_nat (length bytes) = filesize ->
      slice (Some (normalizeRange (onlyEnd n) filesize)) bytes
      = drop (length bytes - Z.to_nat n) bytes.
Proof.
  intros Hn.
  assert (Hnorm : normalizeRange (onlyEnd n) filesize = bothBounds (filesize - n) (filesize - 1)).
  { range_cases; try lia; reflexivity. }
  split; [range_cases; try lia; reflexivity | split; [exact Hnorm |]].
  intros bytes Hlen. rewrite Hnorm. unfold slice, bothBounds. simpl.
  replace (Z.to_nat (filesize - n)) with (length bytes - Z.to_nat n)%nat by lia.
  apply take_ge. rewrite length_drop. lia.
Qed.

Lemma tail_request_last_bytes_witness :
  rangeNotSatisfiable (onlyEnd 3) 8 = false
  /\ normalizeRange (onlyEnd 3) 8 = bothBounds (8 - 3) (8 - 1)
  /\ forall bytes : list Byte.byte,
      Z.of_nat (length bytes) = 8 ->
      slice (Some (normalizeRange (onlyEnd 3) 8)) bytes
      = drop (length bytes - Z.to_nat 3) bytes.
Proof.
  apply (tail_request_last_bytes 3 8). lia.
Defined.

(** ** Variant names and the provider URL, continued *)

(** With an explicit (non-empty) suffix the operations do not enter the
    variant's name: two requests with different non-empty operation lists,
    the same suffix and the same output format share one variant file. *)
Theorem explicit_suffix_shares_variant (host : Host) (file : File)
    (transforms1 transforms2 : list Transformation)
    (request1 request2 : TransformationRequest) (s : string) :
  s <> "" -> suffix request1 = Some s -> suffix request2 = Some s ->
  transforms1 <> [] -> transforms2 <> [] ->
  maybeExtractFormat host transforms1 = maybeExtractFormat host transforms2 ->
  assetFilename host file transforms1 request1 = assetFilename host file transforms2 request2.
Proof.
  intros Hs H1 H2 Hn1 Hn2 Hf. unfold assetFilename, getAssetSuffix.
  rewrite H1, H2, Hf.
  destruct (length transforms1 =? 0)%nat eqn:E1;
    [apply transforms_empty in E1; contradiction |].
  destruct (length transforms2 =? 0)%nat eqn:E2;
    [apply transforms_empty in E2; contradiction |].
  apply truthyStr_true in Hs. rewrite Hs. reflexivity.
Qed.

Lemma explicit_suffix_shares_variant_witness :
  assetFilename Demo.host Demo.photo [Demo.resize "cover" 300 200]
    {| request := JNull; suffix := Some "thumb" |}
  = assetFilename Demo.host Demo.photo [Demo.rotate 90]
      {| request := JNull; suffix := Some "thumb" |}.
Proof.
  apply (explicit_suffix_shares_variant Demo.host Demo.photo
           [Demo.resize "cover" 300 200] [Demo.rotate 90]
           {| request := JNull; suffix := Some "thumb" |}
           {| request := JNull; suffix := Some "thumb" |} "thumb");
    first [reflexivity | discriminate].
Defined.

Lemma append_assoc (a b c : string) : (a +:+ b) +:+ c = a +:+ (b +:+ c).
Proof.
  induction a as [| ch a IH]; [reflexivity |].
  change (String ch ((a +:+ b) +:+ c) = String ch (a +:+ (b +:+ c))).
  f_equal. exact IH.
Qed.

Lemma append_empty_r (a : string) : a +:+ "" = a.
Proof.
  induction a as [| ch a IH]; [reflexivity |].
  change (String ch (a +:+ "") = String ch a). f_equal. exact IH.
Qed.

Lemma transformCmd_None (t : Transformation) :
  transformCmd t = None ->
  method t <> "resize"
  \/ (forall mode, In mode supportedFits -> getProp (firstArg t) "fit" <> JStr mode).
Proof.
  unfold transformCmd, resizeCmd. destruct (String.eqb_spec (method t) "resize") as [E | E].
  - intros H. right. intros mode Hin Hfit.
    destruct (fitParam_supported _ _ Hin Hfit) as [m Hm]. rewrite Hm in H. discriminate.
  - intros _. left. exact E.
Qed.

Lemma buildProcess_None (transforms : list Transformation) :
  forall process,
    buildProcess process transforms = None ->
    exists t, In t transforms /\ effective t = true /\ transformCmd t = None.
Proof.
  induction transforms as [| a rest IH]; intros process H; simpl in H.
  - discriminate.
  - fold (effective a) in H. destruct (effective a) eqn:Ea.
    + destruct (transformCmd a) as [cmd |] eqn:Ec.
      * destruct (IH _ H) as (t & Hin & Ht). exists t. split; [right; exact Hin | exact Ht].
      * exists a. split; [left; reflexivity | split; assumption].
    + destruct (IH _ H) as (t & Hin & Ht). exists t. split; [right; exact Hin | exact Ht].
Qed.

Lemma rewritten_nonempty (a b : string) : a +:+ "?" +:+ b <> "".
Proof. destruct a; discriminate. Qed.

(** For a non-empty URL the rewrite answers with the empty string exactly
    when the list holds an operation with a method name and a truthy first
    argument that is not a resize, or is a resize whose fit is none of the
    five modes. *)
Theorem aliyun_rewrite_empty_iff (host : Host) (url : string)
    (transforms : list Transformation) :
  url <> "" ->
  (addAliyunOSSImageProcessParamsToURL host url transforms = ""
   <-> exists t,
       In t transforms /\ truthyStr (method t) = true /\ truthy (firstArg t) = true
       /\ (method t <> "resize"
           \/ (forall mode, In mode supportedFits ->
                            getProp (firstArg t) "fit" <> JStr mode))).
Proof.
  intros Hurl. split.
  - unfold addAliyunOSSImageProcessParamsToURL.
    destruct (buildProcess "" transforms) as [process |] eqn:Hb.
    + destruct (negb (truthyStr process)); intros H; [contradiction |].
      exfalso. exact (rewritten_nonempty _ _ H).
    + intros _. destruct (buildProcess_None _ _ Hb) as (t & Hin & He & Hc).
      unfold effective in He. apply andb_true_iff in He. destruct He as [Hm Ha].
      exists t. repeat split; try assumption. apply transformCmd_None, Hc.
  - intros (t & Hin & Hm & Ha & Hrej). unfold addAliyunOSSImageProcessParamsToURL.
    rewrite (buildProcess_rejects transforms "" t Hin Hm Ha (transformCmd_rejects t Hrej)).
    reflexivity.
Qed.

Lemma aliyun_rewrite_empty_iff_witness :
  addAliyunOSSImageProcessParamsToURL Demo.host "https://oss.example.com/scan.jpg"
    [Demo.resize "cover" 300 200; Demo.resize "stretch" 10 10] = "".
Proof.
  apply (aliyun_rewrite_empty_iff Demo.host "https://oss.example.com/scan.jpg"
           [Demo.resize "cover" 300 200; Demo.resize "stretch" 10 10]).
  - discriminate.
  - exists (Demo.resize "stretch" 10 10). split; [right; left; reflexivity |].
    split; [reflexivity | split; [reflexivity |]].
    right. intros mode Hin. simpl in Hin.
    destruct Hin as [<- | [<- | [<- | [<- | [<- | []]]]]]; discriminate.
Defined.

Lemma buildProcess_cmds (transforms : list Transformation) :
  forall (process : string) (cmds : list string),
    Forall2 (fun t cmd => transformCmd t = Some cmd)
      (filter (fun t => effective t = true) transforms) cmds ->
    buildProcess process transforms = Some (process +:+ joinCmds cmds).
Proof.
  induction transforms as [| a rest IH]; intros process cmds H; simpl.
  - inversion H; subst. simpl. rewrite append_empty_r. reflexivity.
  - fold (effective a). rewrite filter_cons in H.
    destruct (decide (effective a = true)) as [Ea | Ea].
    + rewrite Ea. inversion H as [| t cmd ts cs Hc Hrest]; subst.
      rewrite Hc. rewrite (IH _ _ Hrest). simpl. rewrite !append_assoc. reflexivity.
    + apply not_true_is_false in Ea. rewrite Ea. apply IH, H.
Qed.

(** The operations the rewrite looks at are encoded in their order: when
    each of them has a command, the URL gets [image/cmd1/cmd2/...] under
    [x-oss-process], and the skipped operations leave no trace. *)
Theorem aliyun_rewrite_in_order (host : Host) (url : string)
    (transforms : list Transformation) (cmds : list string) :
  Forall2 (fun t cmd => transformCmd t = Some cmd)
    (filter (fun t => effective t = true) transforms) cmds ->
  cmds <> [] ->
  addAliyunOSSImageProcessParamsToURL host url transforms
  = beforeQuery url +:+ "?"
    +:+ searchParamsSet host (queryOf url) "x-oss-process" ("image" +:+ joinCmds cmds).
Proof.
  intros H Hne. unfold addAliyunOSSImageProcessParamsToURL.
  rewrite (buildProcess_cmds _ "" _ H). simpl.
  destruct cmds as [| c cs]; [contradiction | reflexivity].
Qed.

Lemma aliyun_rewrite_in_order_witness :
  addAliyunOSSImageProcessParamsToURL Demo.host "https://oss.example.com/scan.jpg?v=2"
    [Demo.resize "inside" 300 0; Demo.flip; Demo.resize "cover" 0 50]
  = "https://oss.example.com/scan.jpg?v=2&x-oss-process=image%2Fresize%2Cm_lfit%2Cw_300%2Fresize%2Cm_fill%2Ch_50".
Proof.
  apply (aliyun_rewrite_in_order Demo.host "https://oss.example.com/scan.jpg?v=2"
           [Demo.resize "inside" 300 0; Demo.flip; Demo.resize "cover" 0 50]
           ["resize,m_lfit,w_300"; "resize,m_fill,h_50"]).
  - repeat constructor.
  - discriminate.
Defined.

Lemma beforeQuery_rewritten (url rest : string) :
  beforeQuery (beforeQuery url +:+ "?" +:+ rest) = beforeQuery url.
Proof.
  induction url as [| c url IH]; simpl; [reflexivity |].
  destruct (Ascii.eqb c "?") eqn:E; simpl; [reflexivity |].
  rewrite E, IH. reflexivity.
Qed.

(** Whatever the rewrite answers, short of the empty string, has the part
    of the URL before its first question mark unchanged. *)
Theorem aliyun_rewrite_keeps_path (host : Host) (url : string)
    (transforms : list Transformation) :
  addAliyunOSSImageProcessParamsToURL host url transforms = ""
  \/ beforeQuery (addAliyunOSSImageProcessParamsToURL host url transforms)
     = beforeQuery url.
Proof.
  unfold addAliyunOSSImageProcessParamsToURL.
  destruct (buildProcess "" transforms) as [process |]; [| left; reflexivity].
  right. destruct (negb (truthyStr process)); [reflexivity |].
  apply beforeQuery_rewritten.
Qed.

(** ** Paths of a request in the reference environment *)

Lemma checkRange_acceptable (range : option Range) (filesize : Z) :
  acceptable range filesize ->
  checkRange range filesize = Ret (normalized range filesize).
Proof.
  intros H. unfold checkRange, normalized. destruct range as [r |]; [| reflexivity].
  rewrite (H r eq_refl). reflexivity.
Qed.

(** [getUrl] on a disk whose driver is not the provider's: a cleared
    request is answered with the empty URL and no file record, after the
    driver's name is asked and nothing else of the storage; the world is
    unchanged. *)
Theorem getUrl_other_driver (host : Host) (service : AssetsService) (w : World)
    (id : string) (file : File) (transformation : TransformationRequest) (driver : string) :
  cleared host service w id file ->
  drivers w !! storage file = Some driver -> driver <> "aliyunoss" ->
  run w (getUrl host service id transformation)
  = (w,
     lookupEvents service w id file
     ++ [Called (StorageGetDriverName (storage file)) (inl driver)],
     inl {| u_url := ""; u_file := None |}).
Proof.
  intros Hc Hd Hne. unfold getUrl. rewrite run_bind, (run_lookupFile _ _ _ _ _ Hc).
  simpl. rewrite Hd. simpl. apply String.eqb_neq in Hne. rewrite Hne. reflexivity.
Qed.

(** [getUrl] on the provider's disk, when the rewrite yields a URL: the
    request is answered with the rewritten URL and the file record as
    found.  The storage is asked for the driver's name and the original's
    URL only: no existence check, no dimension guard, no read, no write,
    no slot. *)
Theorem getUrl_offloads (host : Host) (service : AssetsService) (w : World)
    (id : string) (file : File) (transformation : TransformationRequest) :
  cleared host service w id file ->
  drivers w !! storage file = Some "aliyunoss" ->
  transformable (type file) (resolvePreset host transformation file) = true ->
  offloadUrl host file (publicUrl w (storage file) (filename_disk file))
    (resolvePreset host transformation file) <> "" ->
  run w (getUrl host service id transformation)
  = (w,
     lookupEvents service w id file
     ++ [Called (StorageGetDriverName (storage file)) (inl "aliyunoss");
         Called (DiskGetUrl (storage file) (filename_disk file))
           (inl (publicUrl w (storage file) (filename_disk file)))],
     inl {| u_url := offloadUrl host file (publicUrl w (storage file) (filename_disk file))
                       (resolvePreset host transformation file);
            u_file := Some file |}).
Proof.
  intros Hc Hd Ht Hoff. unfold getUrl. rewrite run_bind, (run_lookupFile _ _ _ _ _ Hc).
  simpl. rewrite Hd. simpl. rewrite Ht.
  apply truthyStr_true in Hoff. rewrite Hoff. reflexivity.
Qed.

(** A cache hit of [getAsset]: when the variant is stored, the request is
    answered with a stream of the variant (with the normalized range), the
    variant's stat and the retyped file record.  The dimension guard is not
    consulted, no slot is taken, nothing is written. *)
Theorem getAsset_cache_hit (host : Host) (service : AssetsService) (w : World)
    (id : string) (file : File) (transformation : TransformationRequest)
    (range : option Range) (bytes : list Byte.byte) :
  cleared host service w id file -> stored w file ->
  acceptable range (filesize file) ->
  transformable (type file) (resolvePreset host transformation file) = true ->
  disks w !! variantPath host file transformation = Some bytes ->
  run w (getAsset host service id transformation range)
  = (w,
     lookupEvents service w id file
     ++ [Called (DiskExists (storage file) (filename_disk file)) (inl true);
         Called (DiskExists (storage file) (variantPath host file transformation).2) (inl true);
         Called (DiskGetStream (storage file) (variantPath host file transformation).2
                   (normalized range (filesize file))) (inl tt);
         Called (DiskGetStat (storage file) (variantPath host file transformation).2)
           (inl {| size := Z.of_nat (length bytes); modified := 0 |})],
     inl {| a_stream := FileStream (storage file) (variantPath host file transformation).2
                          (normalized range (filesize file));
            a_file := retype host file (resolvePreset host transformation file)
                        (variantPath host file transformation).2;
            a_stat := {| size := Z.of_nat (length bytes); modified := 0 |} |}).
Proof.
  intros Hc Hs Hr Ht Hv. rewrite (run_getAsset _ _ _ _ _ _ _ Hc Hs).
  rewrite (checkRange_acceptable _ _ Hr). simpl bind.
  unfold serveAsset, variantPath in *. rewrite Ht. simpl.
  rewrite Hv. simpl. rewrite retype_storage. rewrite Hv. reflexivity.
Qed.

(** [getAsset] for a request that is not transformable (no operations, or
    a type outside the four image types): the original is streamed with
    the normalized range, with its own stat and its record unchanged;
    nothing is written and no slot is taken. *)
Theorem getAsset_passthrough (host : Host) (service : AssetsService) (w : World)
    (id : string) (file : File) (transformation : TransformationRequest)
    (range : option Range) (bytes : list Byte.byte) :
  cleared host service w id file ->
  disks w !! (storage file, filename_disk file) = Some bytes ->
  acceptable range (filesize file) ->
  transformable (type file) (resolvePreset host transformation file) = false ->
  run w (getAsset host service id transformation range)
  = (w,
     lookupEvents service w id file
     ++ [Called (DiskExists (storage file) (filename_disk file)) (inl true);
         Called (DiskGetStream (storage file) (filename_disk file)
                   (normalized range (filesize file))) (inl tt);
         Called (DiskGetStat (storage file) (filename_disk file))
           (inl {| size := Z.of_nat (length bytes); modified := 0 |})],
     inl {| a_stream := FileStream (storage file) (filename_disk file)
                          (normalized range (filesize file));
            a_file := file;
            a_stat := {| size := Z.of_nat (length bytes); modified := 0 |} |}).
Proof.
  intros Hc Hb Hr Ht.
  assert (Hs : stored w file) by (unfold stored; rewrite Hb; eauto).
  rewrite (run_getAsset _ _ _ _ _ _ _ Hc Hs).
  rewrite (checkRange_acceptable _ _ Hr). simpl bind.
  unfold serveAsset. rewrite Ht. simpl. rewrite Hb. reflexivity.
Qed.

(** [getAsset] for a well-formed identifier with access granted: without a
    file record it fails with Forbidden before any storage call; with a
    record whose original is not on its disk it fails with Forbidden right
    after the existence check.  The world is unchanged. *)
Theorem getAsset_forbidden (host : Host) (service : AssetsService) (w : World)
    (id : string) (transformation : TransformationRequest) (range : option Range) :
  validateUUID host id 4 = true ->
  includes (systemPublicKeys (settings w)) id = true
  \/ isAdmin service = true \/ readable w id = true ->
  (files w !! id = None ->
   outcome (run w (getAsset host service id transformation range)) = inr ForbiddenException
   /\ existsb isStorageCall (events (run w (getAsset host service id transformation range)))
      = false
   /\ after (run w (getAsset host service id transformation range)) = w)
  /\ (forall file,
      files w !! id = Some file ->
      disks w !! (storage file, filename_disk file) = None ->
      run w (getAsset host service id transformation range)
      = (w,
         lookupEvents service w id file
         ++ [Called (DiskExists (storage file) (filename_disk file)) (inl false)],
         inr ForbiddenException)).
Proof.
  intros Hid Hacc. split.
  - intros Hfile. unfold getAsset, lookupFile, outcome, events, after. simpl.
    rewrite Hid. simpl.
    destruct (includes (systemPublicKeys (settings w)) id) eqn:Hin; simpl.
    + rewrite Hfile. simpl. repeat split; reflexivity.
    + destruct (isAdmin service) eqn:Hadm; simpl.
      * rewrite Hfile. simpl. repeat split; reflexivity.
      * destruct Hacc as [Hacc | [Hacc | Hacc]]; try discriminate.
        rewrite Hacc. simpl. rewrite Hfile. simpl. repeat split; reflexivity.
  - intros file Hfile Hb.
    assert (Hc : cleared host service w id file) by (repeat split; assumption).
    unfold getAsset. rewrite run_bind, (run_lookupFile _ _ _ _ _ Hc). simpl.
    rewrite Hb. reflexivity.
Qed.

Lemma run_transformAsset_full (host : Host) (w : World) (file : File)
    (originalType : option string) (transforms : list Transformation) (name : string)
    (range : option Range) (bytes : list Byte.byte) :
  disks w !! (storage file, filename_disk file) = Some bytes ->
  let out := render w (assetTransformer host transforms) (slice range bytes) in
  run w (runExclusive (transformAsset host file originalType transforms name range))
  = (setDisks w (<[(storage file, name) := out]> (disks w)),
     [Acquired;
      Called (DiskGetStream (storage file) (filename_disk file) range) (inl tt);
      Called (DiskPut (storage file) name
                (Piped (FileStream (storage file) (filename_disk file) range)
                   (assetTransformer host transforms)) originalType) (inl tt);
      Called (DiskGetStream (storage file) name range) (inl tt);
      Called (DiskGetStat (storage file) name)
        (inl {| size := Z.of_nat (length out); modified := 0 |});
      Released],
     inl {| a_stream := FileStream (storage file) name range; a_file := file;
            a_stat := {| size := Z.of_nat (length out); modified := 0 |} |}).
Proof.
  intros Hb out. unfold runExclusive, transformAsset. simpl.
  rewrite Hb. simpl. rewrite lookup_insert_eq. reflexivity.
Qed.

(** A cache miss of [getAsset] within the dimension limits: between one
    acquire and one release the original is opened, the pipeline's output
    is put at the variant path with the content type the record had before
    retyping, and the variant is opened and stat'ed; the answer carries
    the variant's stream, the retyped record and the size of what was
    written. *)
Theorem getAsset_materializes (host : Host) (service : AssetsService) (w : World)
    (id : string) (file : File) (transformation : TransformationRequest)
    (range : option Range) (bytes : list Byte.byte) :
  cleared host service w id file ->
  disks w !! (storage file, filename_disk file) = Some bytes ->
  acceptable range (filesize file) ->
  transformable (type file) (resolvePreset host transformation file) = true ->
  disks w !! variantPath host file transformation = None ->
  refused host file = false ->
  let transforms := resolvePreset host transformation file in
  let name := (variantPath host file transformation).2 in
  let range' := normalized range (filesize file) in
  let out := render w (assetTransformer host transforms) (slice range' bytes) in
  let stat := {| size := Z.of_nat (length out); modified := 0 |} in
  run w (getAsset host service id transformation range)
  = (setDisks w (<[variantPath host file transformation := out]> (disks w)),
     lookupEvents service w id file
     ++ [Called (DiskExists (storage file) (filename_disk file)) (inl true);
         Called (DiskExists (storage file) name) (inl false);
         Acquired;
         Called (DiskGetStream (storage file) (filename_disk file) range') (inl tt);
         Called (DiskPut (storage file) name
                   (Piped (FileStream (storage file) (filename_disk file) range')
                      (assetTransformer host transforms)) (type file)) (inl tt);
         Called (DiskGetStream (storage file) name range') (inl tt);
         Called (DiskGetStat (storage file) name) (inl stat);
         Released],
     inl {| a_stream := FileStream (storage file) name range';
            a_file := retype host file transforms name;
            a_stat := stat |}).
Proof.
  intros Hc Hb Hr Ht Hv Href transforms name range' out stat.
  assert (Hs : stored w file) by (unfold stored; rewrite Hb; eauto).
  rewrite (run_getAsset _ _ _ _ _ _ _ Hc Hs).
  rewrite (checkRange_acceptable _ _ Hr). simpl bind.
  subst transforms name range' out stat.
  unfold serveAsset, variantPath in *. simpl. rewrite Ht. simpl. rewrite Hv. simpl.
  rewrite retype_refused, Href.
  match goal with
  | |- context [run w (runExclusive (transformAsset host ?f ?ty ?ts ?n ?r))] =>
      pose proof (run_transformAsset_full host w f ty ts n r bytes) as Hrun
  end.
  rewrite retype_storage, retype_filename in Hrun. specialize (Hrun Hb). cbv zeta in Hrun.
  rewrite Hrun. reflexivity.
Qed.

(** After a request has built its variant, the same request (with any
    acceptable range) is a cache hit: it takes no slot, writes nothing,
    leaves the world as the first request left it, and streams the
    variant. *)
Theorem getAsset_then_cache_hit (host : Host) (service : AssetsService) (w : World)
    (id : string) (file : File) (transformation : TransformationRequest)
    (range range2 : option Range) (bytes : list Byte.byte) :
  cleared host service w id file ->
  disks w !! (storage file, filename_disk file) = Some bytes ->
  acceptable range (filesize file) ->
  acceptable range2 (filesize file) ->
  transformable (type file) (resolvePreset host transformation file) = true ->
  disks w !! variantPath host file transformation = None ->
  refused host file = false ->
  let w' := after (run w (getAsset host service id transformation range)) in
  let second := run w' (getAsset host service id transformation range2) in
  existsb isAcquired (events second) = false
  /\ existsb isPut (events second) = false
  /\ after second = w'
  /\ servedStream (outcome second)
     = Some (FileStream (storage file) (variantPath host file transformation).2
               (normalized range2 (filesize file))).
Proof.
  intros Hc Hb Hr Hr2 Ht Hv Href w' second.
  pose proof (getAsset_materializes host service w id file transformation range bytes
                Hc Hb Hr Ht Hv Href) as Hfirst.
  cbv zeta in Hfirst.
  assert (Hw' : w' = setDisks w
                       (<[variantPath host file transformation :=
                            render w (assetTransformer host (resolvePreset host transformation file))
                              (slice (normalized range (filesize file)) bytes)]> (disks w))).
  { unfold w', after. rewrite Hfirst. reflexivity. }
  assert (Hc' : cleared host service w' id file).
  { rewrite Hw'. destruct Hc as (H1 & H2 & H3). repeat split; assumption. }
  assert (Hs' : stored w' file).
  { rewrite Hw'. unfold stored. simpl.
    destruct (decide (variantPath host file transformation = (storage file, filename_disk file)))
      as [E | E].
    - rewrite E, lookup_insert_eq. eauto.
    - rewrite lookup_insert_ne by exact E. rewrite Hb. eauto. }
  assert (Hv' : disks w' !! variantPath host file transformation
                = Some (render w (assetTransformer host (resolvePreset host transformation file))
                          (slice (normalized range (filesize file)) bytes))).
  { rewrite Hw'. simpl. apply lookup_insert_eq. }
  pose proof (getAsset_cache_hit host service w' id file transformation range2 _
                Hc' Hs' Hr2 Ht Hv') as Hsecond.
  fold second in Hsecond. rewrite Hsecond. unfold events, after, outcome. simpl.
  pose proof (lookupEvents_quiet service w' id file
                [Called (DiskExists (storage file) (filename_disk file)) (inl true);
                 Called (DiskExists (storage file) (variantPath host file transformation).2)
                   (inl true);
                 Called (DiskGetStream (storage file) (variantPath host file transformation).2
                           (normalized range2 (filesize file))) (inl tt);
                 Called (DiskGetStat (storage file) (variantPath host file transformation).2)
                   (inl {| size := Z.of_nat (length (render w (assetTransformer host (resolvePreset host transformation file))
                              (slice (normalized range (filesize file)) bytes))); modified := 0 |})]
                eq_refl eq_refl) as [Ha Hp].
  simpl in Ha, Hp. repeat split; assumption.
Qed.

Lemma getUrl_other_driver_witness :
  outcome (run Demo.world
             (getUrl Demo.host Demo.service Demo.photoId
                (Demo.ask [Demo.resize "cover" 300 200])))
  = inl {| u_url := ""; u_file := None |}.
Proof.
  rewrite (getUrl_other_driver Demo.host Demo.service Demo.world Demo.photoId Demo.photo
             (Demo.ask [Demo.resize "cover" 300 200]) "local").
  - reflexivity.
  - apply demo_cleared; reflexivity.
  - reflexivity.
  - discriminate.
Defined.

Lemma getUrl_offloads_witness :
  outcome (run Demo.world
             (getUrl Demo.host Demo.service Demo.scanId
                (Demo.ask [Demo.resize "cover" 300 200])))
  = inl {| u_url := "https://oss.example.com/scan.jpg?x-oss-process=image%2Fresize%2Cm_fill%2Cw_300%2Ch_200";
           u_file := Some Demo.scan |}.
Proof.
  rewrite (getUrl_offloads Demo.host Demo.service Demo.world Demo.scanId Demo.scan
             (Demo.ask [Demo.resize "cover" 300 200])).
  - reflexivity.
  - apply demo_cleared; reflexivity.
  - reflexivity.
  - reflexivity.
  - vm_compute. discriminate.
Defined.

Lemma warm_cleared : cleared Demo.host Demo.service warmWorld Demo.photoId Demo.photo.
Proof.
  split; [reflexivity | split; [right; right; reflexivity | reflexivity]].
Defined.

Lemma getAsset_cache_hit_witness :
  servedStream
    (outcome (run warmWorld
                (getAsset Demo.host Demo.service Demo.photoId
                   (Demo.ask [Demo.resize "cover" 300 200]) (Some (onlyEnd 2)))))
  = Some (FileStream "local" "photo__resize.jpg" (Some (bothBounds 6 7))).
Proof.
  rewrite (getAsset_cache_hit Demo.host Demo.service warmWorld Demo.photoId Demo.photo
             (Demo.ask [Demo.resize "cover" 300 200]) (Some (onlyEnd 2))
             [Byte.x2a; Byte.x2b; Byte.x2c]).
  - reflexivity.
  - exact warm_cleared.
  - eexists. vm_compute. reflexivity.
  - intros r H. inversion H. reflexivity.
  - reflexivity.
  - vm_compute. reflexivity.
Defined.

Lemma getAsset_passthrough_witness :
  servedStream
    (outcome (run Demo.world
                (getAsset Demo.host Demo.service Demo.photoId (Demo.ask []) None)))
  = Some (FileStream "local" "photo.jpg" None).
Proof.
  rewrite (getAsset_passthrough Demo.host Demo.service Demo.world Demo.photoId Demo.photo
             (Demo.ask []) None Demo.photoBytes).
  - reflexivity.
  - apply demo_cleared; reflexivity.
  - vm_compute. reflexivity.
  - intros r H. discriminate H.
  - reflexivity.
Defined.

Lemma getAsset_forbidden_witness :
  outcome (run Demo.world (getAsset Demo.host Demo.service strayId (Demo.ask []) None))
  = inr ForbiddenException.
Proof.
  apply (getAsset_forbidden Demo.host Demo.service Demo.world strayId (Demo.ask []) None).
  - reflexivity.
  - right. right. reflexivity.
  - vm_compute. reflexivity.
Defined.

Lemma getAsset_materializes_witness :
  events (run Demo.world
            (getAsset Demo.host Demo.service Demo.photoId
               (Demo.ask [Demo.resize "cover" 300 200]) None))
  = lookupEvents Demo.service Demo.world Demo.photoId Demo.photo
    ++ [Called (DiskExists "local" "photo.jpg") (inl true);
        Called (DiskExists "local" "photo__resize.jpg") (inl false);
        Acquired;
        Called (DiskGetStream "local" "photo.jpg" None) (inl tt);
        Called (DiskPut "local" "photo__resize.jpg"
                  (Piped (FileStream "local" "photo.jpg" None)
                     (assetTransformer Demo.host [Demo.resize "cover" 300 200]))
                  (Some "image/jpeg")) (inl tt);
        Called (DiskGetStream "local" "photo__resize.jpg" None) (inl tt);
        Called (DiskGetStat "local" "photo__resize.jpg") (inl {| size := 8; modified := 0 |});
        Released].
Proof.
  rewrite (getAsset_materializes Demo.host Demo.service Demo.world Demo.photoId Demo.photo
             (Demo.ask [Demo.resize "cover" 300 200]) None Demo.photoBytes).
  - reflexivity.
  - apply demo_cleared; reflexivity.
  - vm_compute. reflexivity.
  - intros r H. discriminate H.
  - reflexivity.
  - vm_compute. reflexivity.
  - reflexivity.
Defined.

Lemma getAsset_then_cache_hit_witness :
  existsb isAcquired
    (events (run (after (run Demo.world
                           (getAsset Demo.host Demo.service Demo.photoId
                              (Demo.ask [Demo.resize "cover" 300 200]) None)))
               (getAsset Demo.host Demo.service Demo.photoId
                  (Demo.ask [Demo.resize "cover" 300 200]) (Some (onlyStart 4)))))
  = false.
Proof.
  apply (getAsset_then_cache_hit Demo.host Demo.service Demo.world Demo.photoId Demo.photo
           (Demo.ask [Demo.resize "cover" 300 200]) None (Some (onlyStart 4)) Demo.photoBytes).
  - apply demo_cleared; reflexivity.
  - vm_compute. reflexivity.
  - intros r H. discriminate H.
  - intros r H. inversion H. reflexivity.
  - reflexivity.
  - vm_compute. reflexivity.
  - reflexivity.
Defined.

(** ** Every execution *)

Lemma Only_Exec {A : Type} (ok : forall X : Type, Cmd X -> Prop) (p : Prog A) :
  Only ok p -> forall tr res, Exec p tr res -> Forall (eventOk ok) tr.
Proof.
  induction p as [a | e | X c k IH | k IH | k IH]; simpl; intros Hp tr res H.
  - destruct H as [-> _]. constructor.
  - destruct H as [-> _]. constructor.
  - destruct Hp as [Hc Hk]. destruct H as (r & tr' & -> & H).
    constructor; [exact Hc | eapply IH; eauto].
  - destruct H as (tr' & -> & H). constructor; [exact I | eapply IH; eauto].
  - destruct H as (tr' & -> & H). constructor; [exact I | eapply IH; eauto].
Qed.

Lemma Only_call {X : Type} (ok : forall X : Type, Cmd X -> Prop) (c : Cmd X) :
  ok _ c -> Only ok (call c).
Proof.
  intros H. unfold call. simpl. split; [exact H |]. intros [x | e]; exact I.
Qed.

Lemma Only_bind {A B : Type} (ok : forall X : Type, Cmd X -> Prop)
    (p : Prog A) (f : A -> Prog B) :
  Only ok p -> (forall a, Only ok (f a)) -> Only ok (bind p f).
Proof.
  intros Hp Hf. induction p as [a | e | X c k IH | k IH | k IH]; simpl in *.
  - apply Hf.
  - exact I.
  - destruct Hp as [Hc Hk]. split; [exact Hc |]. intros r. apply IH, Hk.
  - apply IH, Hp.
  - apply IH, Hp.
Qed.

Lemma Only_finallyRelease {A : Type} (ok : forall X : Type, Cmd X -> Prop) (p : Prog A) :
  Only ok p -> Only ok (finallyRelease p).
Proof.
  intros Hp. induction p as [a | e | X c k IH | k IH | k IH]; simpl in *; try exact I.
  - destruct Hp as [Hc Hk]. split; [exact Hc |]. intros r. apply IH, Hk.
  - apply IH, Hp.
  - apply IH, Hp.
Qed.

Lemma Only_runExclusive {A : Type} (ok : forall X : Type, Cmd X -> Prop) (p : Prog A) :
  Only ok p -> Only ok (runExclusive p).
Proof. intros Hp. unfold runExclusive. simpl. apply Only_finallyRelease, Hp. Qed.

Ltac only_calls_by known :=
  repeat first
    [ exact I
    | known
    | apply Only_runExclusive
    | apply Only_bind; [| intros ?]
    | apply Only_call; simpl
    | match goal with
      | |- Only _ (if ?b then _ else _) => destruct b
      | |- Only _ (match ?o with Some _ => _ | None => _ end) => destruct o
      end ].

Lemma Exec_bind {A B : Type} (p : Prog A) (f : A -> Prog B) :
  forall tr res,
    Exec (bind p f) tr res ->
    (exists tr1 a tr2, Exec p tr1 (inl a) /\ Exec (f a) tr2 res /\ tr = tr1 ++ tr2)
    \/ (exists e, Exec p tr (inr e) /\ res = inr e).
Proof.
  induction p as [a | e | X c k IH | k IH | k IH]; simpl; intros tr res H.
  - left. exists [], a, tr. repeat split; auto.
  - destruct H as [-> ->]. right. exists e. repeat split; auto.
  - destruct H as (r & tr' & -> & H). destruct (IH r _ _ H) as
      [(tr1 & a & tr2 & H1 & H2 & ->) | (e & H1 & ->)].
    + left. exists (Called c r :: tr1), a, tr2. repeat split; eauto.
    + right. exists e. split; eauto.
  - destruct H as (tr' & -> & H). destruct (IH _ _ H) as
      [(tr1 & a & tr2 & H1 & H2 & ->) | (e & H1 & ->)].
    + left. exists (Acquired :: tr1), a, tr2. repeat split; eauto.
    + right. exists e. split; eauto.
  - destruct H as (tr' & -> & H). destruct (IH _ _ H) as
      [(tr1 & a & tr2 & H1 & H2 & ->) | (e & H1 & ->)].
    + left. exists (Released :: tr1), a, tr2. repeat split; eauto.
    + right. exists e. split; eauto.
Qed.

(** What the first lines of a request can leave behind. *)
Lemma Exec_lookupFile (host : Host) (service : AssetsService) (id : string)
    (tr : list Event) (res : File + Exception) :
  Exec (lookupFile host service id) tr res ->
  existsb isStorageCall tr = false /\ existsb isPut tr = false
  /\ existsb isAcquired tr = false
  /\ (isAdmin service = true -> existsb isAccessCheck tr = false)
  /\ match res with
     | inl file =>
         validateUUID host id 4 = true /\ existsb isRefusal tr = false
         /\ In (Called (SelectFile id) (inl (Some file))) tr
     | inr e => existsb isRefusal tr = true -> existsb isFileQuery tr = false
     end.
Proof.
  unfold lookupFile. simpl. intros (r & tr' & -> & H).
  destruct r as [s | e]; simpl in H.
  2:{ destruct H as [-> ->]. simpl. repeat split; auto. }
  destruct (validateUUID host id 4) eqn:Hid; simpl in H.
  2:{ destruct H as [-> ->]. simpl. repeat split; auto. }
  destruct (negb (includes (systemPublicKeys s) id) && negb (isAdmin service)) eqn:Hneed;
    simpl in H.
  - destruct H as (rc & tr2 & -> & H). destruct rc as [[] | e]; simpl in H.
    + destruct H as (rf & tr3 & -> & H). destruct rf as [[file |] | e]; simpl in H;
        destruct H as [-> ->]; simpl; repeat split; auto;
        intros Hadm; rewrite Hadm, andb_false_r in Hneed; discriminate.
    + destruct H as [-> ->]. simpl. repeat split; auto.
      intros Hadm; rewrite Hadm, andb_false_r in Hneed; discriminate.
  - destruct H as (rf & tr3 & -> & H). destruct rf as [[file |] | e]; simpl in H;
      destruct H as [-> ->]; simpl; repeat split; auto.
Qed.

Lemma notAccess_trace (tr : list Event) :
  Forall (eventOk notAccess) tr ->
  existsb isAccessCheck tr = false /\ existsb isRefusal tr = false.
Proof.
  induction 1 as [| ev tr Hev _ [IH1 IH2]]; simpl; [split; reflexivity |].
  rewrite IH1, IH2. destruct ev as [X c r | |]; simpl in *.
  - unfold notAccess in Hev. rewrite Hev. destruct r; split; reflexivity.
  - split; reflexivity.
  - split; reflexivity.
Qed.

Lemma Only_notAccess_serveAsset (host : Host) (file : File)
    (transformation : TransformationRequest) (range : option Range) :
  Only notAccess (serveAsset host file transformation range).
Proof.
  unfold serveAsset, transformAsset. only_calls_by fail; reflexivity.
Qed.

Lemma Only_notAccess_fallbackUrl (host : Host) (file : File)
    (transformation : TransformationRequest) (transforms : list Transformation) :
  Only notAccess (fallbackUrl host file transformation transforms).
Proof.
  unfold fallbackUrl, transformUrl. only_calls_by fail; reflexivity.
Qed.

Lemma existsb_app_false {A : Type} (f : A -> bool) (l1 l2 : list A) :
  existsb f l1 = false -> existsb f l2 = false -> existsb f (l1 ++ l2) = false.
Proof.
  intros H1 H2. rewrite existsb_app, H1, H2. reflexivity.
Qed.

Lemma access_outcome {A B : Type} (host : Host) (service : AssetsService) (id : string)
    (f : File -> Prog B) (tr : list Event) (res : B + Exception) :
  (forall file, Only notAccess (f file)) ->
  Exec (bind (lookupFile host service id) f) tr res ->
  (isAdmin service = true -> existsb isAccessCheck tr = false)
  /\ (existsb isRefusal tr = true ->
      existsb isFileQuery tr = false /\ existsb isStorageCall tr = false
      /\ exists e, res = inr e).
Proof.
  intros Hf H. destruct (Exec_bind _ _ _ _ H) as
    [(tr1 & file & tr2 & H1 & H2 & ->) | (e & H1 & ->)].
  - destruct (Exec_lookupFile _ _ _ _ _ H1) as (_ & _ & _ & Hadm & _ & Hnr & _).
    destruct (notAccess_trace _ (Only_Exec _ _ (Hf file) _ _ H2)) as [Ha Hr].
    split.
    + intros Hs. apply existsb_app_false; auto.
    + intros Href. rewrite (existsb_app_false _ _ _ Hnr Hr) in Href. discriminate.
  - destruct (Exec_lookupFile _ _ _ _ _ H1) as (Hst & _ & _ & Hadm & Hq).
    split; [exact Hadm |]. intros Href. repeat split; eauto.
Qed.

(** In every execution of [getAsset] and of [getUrl], whatever the
    collaborators answer: an administrator's request makes no access
    check; and when the access check is refused, the file record is not
    queried, the storage is not called, and the request fails. *)
Theorem refused_access_stops (host : Host) (service : AssetsService) (id : string)
    (transformation : TransformationRequest) (range : option Range) (tr : list Event) :
  (forall res,
      Exec (getAsset host service id transformation range) tr res ->
      (isAdmin service = true -> existsb isAccessCheck tr = false)
      /\ (existsb isRefusal tr = true ->
          existsb isFileQuery tr = false /\ existsb isStorageCall tr = false
          /\ exists e, res = inr e))
  /\ (forall res,
      Exec (getUrl host service id transformation) tr res ->
      (isAdmin service = true -> existsb isAccessCheck tr = false)
      /\ (existsb isRefusal tr = true ->
          existsb isFileQuery tr = false /\ existsb isStorageCall tr = false
          /\ exists e, res = inr e)).
Proof.
  split; intros res H.
  - unfold getAsset in H. apply (access_outcome (A := File)) in H; [exact H |].
    intros file. unfold checkRange.
    only_calls_by ltac:(apply Only_notAccess_serveAsset); reflexivity.
  - unfold getUrl in H. apply (access_outcome (A := File)) in H; [exact H |].
    intros file.
    only_calls_by ltac:(apply Only_notAccess_fallbackUrl); reflexivity.
Qed.

Lemma options_fold_invoke (transforms : list Transformation) :
  forall transformer : Transformer,
    limitInputPixels (fold_left invoke transforms transformer) = limitInputPixels transformer
    /\ sequentialRead (fold_left invoke transforms transformer) = sequentialRead transformer.
Proof.
  induction transforms as [| t rest IH]; intros transformer; simpl.
  - split; reflexivity.
  - destruct (IH (invoke transformer t)) as [H1 H2]. rewrite H1, H2. split; reflexivity.
Qed.

Lemma options_assetTransformer (host : Host) (transforms : list Transformation) :
  limitInputPixels (assetTransformer host transforms) = maxDimension host ^ 2
  /\ sequentialRead (assetTransformer host transforms) = true.
Proof.
  unfold assetTransformer. destruct (options_fold_invoke transforms
    (if negb (hasRotate transforms) then invoke (newTransformer host) autoOrient
     else newTransformer host)) as [H1 H2].
  rewrite H1, H2. destruct (negb (hasRotate transforms)); split; reflexivity.
Qed.

Lemma options_urlTransformer (host : Host) (transforms : list Transformation) :
  limitInputPixels (urlTransformer host transforms) = maxDimension host ^ 2
  /\ sequentialRead (urlTransformer host transforms) = true.
Proof.
  unfold urlTransformer.
  destruct (options_fold_invoke transforms (invoke (newTransformer host) autoOrient))
    as [H1 H2].
  rewrite H1, H2. split; reflexivity.
Qed.

Lemma Only_putAt_serveAsset (host : Host) (file : File)
    (transformation : TransformationRequest) (range : option Range) :
  Only (putAt host file transformation) (serveAsset host file transformation range).
Proof.
  unfold serveAsset, transformAsset. only_calls_by fail; try exact I.
  unfold variantPath. rewrite retype_storage, retype_filename.
  split; [reflexivity | split; [reflexivity |]].
  eexists _, _. split; [reflexivity |]. apply options_assetTransformer.
Qed.

Lemma Only_putAt_fallbackUrl (host : Host) (file : File)
    (transformation : TransformationRequest) :
  Only (putAt host file transformation)
    (fallbackUrl host file transformation (resolvePreset host transformation file)).
Proof.
  unfold fallbackUrl, transformUrl. only_calls_by fail; try exact I.
  unfold variantPath. rewrite retype_storage, retype_filename.
  split; [reflexivity | split; [reflexivity |]].
  eexists _, _. split; [reflexivity |]. apply options_urlTransformer.
Qed.

Lemma no_put_putAt (host : Host) (file : File) (transformation : TransformationRequest)
    (tr : list Event) :
  existsb isPut tr = false -> Forall (eventOk (putAt host file transformation)) tr.
Proof.
  induction tr as [| ev tr IH]; simpl; intros H; [constructor |].
  apply orb_false_iff in H. destruct H as [Hev Htr]. constructor; [| apply IH, Htr].
  destruct ev as [X c r | |]; simpl in *; try exact I.
  destruct c; simpl in *; try exact I. discriminate.
Qed.

Lemma puts_outcome {B : Type} (host : Host) (service : AssetsService) (id : string)
    (transformation : TransformationRequest) (f : File -> Prog B)
    (tr : list Event) (res : B + Exception) :
  (forall file, Only (putAt host file transformation) (f file)) ->
  Exec (bind (lookupFile host service id) f) tr res ->
  existsb isPut tr = false
  \/ exists file,
      In (Called (SelectFile id) (inl (Some file))) tr
      /\ Forall (eventOk (putAt host file transformation)) tr.
Proof.
  intros Hf H. destruct (Exec_bind _ _ _ _ H) as
    [(tr1 & file & tr2 & H1 & H2 & ->) | (e & H1 & ->)].
  - right. exists file.
    destruct (Exec_lookupFile _ _ _ _ _ H1) as (_ & Hput & _ & _ & _ & _ & Hin).
    split; [apply in_or_app; left; exact Hin |].
    apply Forall_app. split.
    + apply no_put_putAt, Hput.
    + exact (Only_Exec _ _ (Hf file) _ _ H2).
  - left. destruct (Exec_lookupFile _ _ _ _ _ H1) as (_ & Hput & _). exact Hput.
Qed.

(** In every execution of [getAsset] and of [getUrl], whatever the
    collaborators answer, either nothing is written, or the database
    answered with a file record and every write is a pipeline's output put
    on that record's disk under the variant's name, with the content type
    the record came with, from a pipeline limited to the square of the
    maximal dimension that reads sequentially. *)
Theorem writes_only_the_variant (host : Host) (service : AssetsService) (id : string)
    (transformation : TransformationRequest) (range : option Range) (tr : list Event) :
  (forall res,
      Exec (getAsset host service id transformation range) tr res ->
      existsb isPut tr = false
      \/ exists file,
          In (Called (SelectFile id) (inl (Some file))) tr
          /\ Forall (eventOk (putAt host file transformation)) tr)
  /\ (forall res,
      Exec (getUrl host service id transformation) tr res ->
      existsb isPut tr = false
      \/ exists file,
          In (Called (SelectFile id) (inl (Some file))) tr
          /\ Forall (eventOk (putAt host file transformation)) tr).
Proof.
  split; intros res H.
  - unfold getAsset in H. apply (puts_outcome host service id transformation) in H; [exact H |].
    intros file. unfold checkRange.
    only_calls_by ltac:(apply Only_putAt_serveAsset); exact I.
  - unfold getUrl in H. apply (puts_outcome host service id transformation) in H; [exact H |].
    intros file.
    only_calls_by ltac:(apply Only_putAt_fallbackUrl); exact I.
Qed.

Lemma refused_access_stops_witness :
  existsb isFileQuery
    [Called SelectSettings (inl None);
     Called (CheckAccess "read" "directus_files" Demo.photoId) (inr ForbiddenException)]
  = false
  /\ existsb isStorageCall
       [Called SelectSettings (inl None);
        Called (CheckAccess "read" "directus_files" Demo.photoId) (inr ForbiddenException)]
     = false
  /\ exists e, @inr AssetResponse Exception ForbiddenException = inr e.
Proof.
  apply (proj1 (refused_access_stops Demo.host Demo.service Demo.photoId (Demo.ask []) None
                  [Called SelectSettings (inl None);
                   Called (CheckAccess "read" "directus_files" Demo.photoId)
                     (inr ForbiddenException)])
           (inr ForbiddenException)).
  - exists (inl None), [Called (CheckAccess "read" "directus_files" Demo.photoId)
                          (inr ForbiddenException)].
    split; [reflexivity |].
    exists (inr ForbiddenException), []. split; [reflexivity |]. split; reflexivity.
  - reflexivity.
Defined.

Lemma writes_only_the_variant_witness :
  existsb isPut
    (events (run Demo.world
               (getAsset Demo.host Demo.service Demo.photoId
                  (Demo.ask [Demo.resize "cover" 300 200]) None))) = false
  \/ exists file,
      In (Called (SelectFile Demo.photoId) (inl (Some file)))
        (events (run Demo.world
                   (getAsset Demo.host Demo.service Demo.photoId
                      (Demo.ask [Demo.resize "cover" 300 200]) None)))
      /\ Forall (eventOk (putAt Demo.host file (Demo.ask [Demo.resize "cover" 300 200])))
           (events (run Demo.world
                      (getAsset Demo.host Demo.service Demo.photoId
                         (Demo.ask [Demo.resize "cover" 300 200]) None))).
Proof.
  apply (proj1 (writes_only_the_variant Demo.host Demo.service Demo.photoId
                  (Demo.ask [Demo.resize "cover" 300 200]) None _)
           (outcome (run Demo.world
                       (getAsset Demo.host Demo.service Demo.photoId
                          (Demo.ask [Demo.resize "cover" 300 200]) None)))).
  apply run_Exec.
Defined.
